(** * stackexchange-xml-parser: a shallow embedding of parser.py and parser2.py

    The development follows the two scripts of the repository:
    - [parser.py]  : year-only filter, streaming extraction, echo output;
    - [parser2.py] : [PostFilter], [TopicsFormatter], [StreamingPostExtractor].

    Python values are modelled as follows.
    - [str] is the [string] of its UTF-8 encoding; [\d], [\s], [strip]
      and [int] decode it and follow the Unicode character database.
    - [int] is [Z] (unbounded).
    - [dict] from attribute names to values is [gmap string string];
      [set] is [gset]; [list] is [list].
    - [None]-able parameters are [option].
    - Exceptions are explicit: a computation that may raise has type
      [result A].

    Left out: the messages printed to stdout and stderr (progress,
    verbose summaries), and the serialisation of the output tree (XML
    declaration, indentation, escaping); a written file is represented by
    the rows or topics it holds. *)

From stdpp Require Import base option list gmap strings pretty.
From Stdlib Require Import ZArith Ascii String Lia.

Local Open Scope string_scope.
Local Open Scope Z_scope.

(** ** Exceptions *)

Inductive exn : Type :=
  | ValueError
  | ParseError
  | FileNotFoundError
  | OSError
  | SystemExit (code : Z).

Inductive result (A : Type) : Type :=
  | Ok (a : A)
  | Raise (e : exn).
Arguments Ok {A} a.
Arguments Raise {A} e.

(** Sequencing: an exception raised by the first computation propagates. *)
Definition bind {A B} (m : result A) (k : A → result B) : result B :=
  match m with
  | Ok a => k a
  | Raise e => Raise e
  end.

Notation "x <- m ;; k" := (bind m (λ x, k))
  (at level 100, m at next level, right associativity).

(** [try: m except ValueError: h] *)
Definition try_except_ValueError {A} (m : result A) (h : result A) : result A :=
  match m with
  | Raise ValueError => h
  | _ => m
  end.

(** ** Python builtins

    A [str] is held as the [string] of its UTF-8 encoding. Equality,
    truthiness, [split(',')] and the tag pattern work on the bytes; the
    functions that depend on character classes ([int], [\d], [\s],
    [strip]) decode the characters first. *)

Module Py.

Definition byte (c : ascii) : N := N_of_ascii c.

(** A character: its code point and the bytes that encode it. *)
Record char := Char { code : N; utf8 : string }.

(** A continuation byte at the head of [s]: its six bits, and what
    follows it. *)
Definition continuation (s : string) : option (N * string) :=
  match s with
  | String b s' =>
      if (128 <=? byte b)%N && (byte b <=? 191)%N
      then Some ((byte b - 128)%N, s') else None
  | EmptyString => None
  end.

(** The character that starts with the byte [b] followed by [s]: its code
    point and the number of bytes of [s] that belong to it. A byte that
    starts no well-formed character stands alone, with a code beyond
    U+10FFFF. *)
Definition head_char (b : ascii) (s : string) : N * nat :=
  let n := byte b in
  let stray := ((1114112 + n)%N, O) in
  if (n <? 128)%N then (n, O)
  else if (n <? 192)%N then stray
  else if (n <? 224)%N then
    match continuation s with
    | Some (x1, _) =>
        let cp := ((n - 192) * 64 + x1)%N in
        if (128 <=? cp)%N then (cp, 1%nat) else stray
    | None => stray
    end
  else if (n <? 240)%N then
    match continuation s with
    | Some (x1, s1) =>
        match continuation s1 with
        | Some (x2, _) =>
            let cp := (((n - 224) * 64 + x1) * 64 + x2)%N in
            if (2048 <=? cp)%N && negb ((55296 <=? cp)%N && (cp <=? 57343)%N)
            then (cp, 2%nat) else stray
        | None => stray
        end
    | None => stray
    end
  else if (n <? 248)%N then
    match continuation s with
    | Some (x1, s1) =>
        match continuation s1 with
        | Some (x2, s2) =>
            match continuation s2 with
            | Some (x3, _) =>
                let cp := ((((n - 240) * 64 + x1) * 64 + x2) * 64 + x3)%N in
                if (65536 <=? cp)%N && (cp <=? 1114111)%N
                then (cp, 3%nat) else stray
            | None => stray
            end
        | None => stray
        end
    | None => stray
    end
  else stray.

(** The characters of a string. [skip] counts the bytes of the current
    character still to pass over. *)
Fixpoint chars_from (skip : nat) (s : string) : list char :=
  match s with
  | String b s' =>
      match skip with
      | S k => chars_from k s'
      | O =>
          let '(cp, k) := head_char b s' in
          Char cp (String b (String.substring 0 k s')) :: chars_from k s'
      end
  | EmptyString => []
  end.

Definition chars (s : string) : list char := chars_from 0 s.

(** The string made of the characters [cs]. *)
Fixpoint text (cs : list char) : string :=
  match cs with
  | c :: cs' => utf8 c +:+ text cs'
  | [] => EmptyString
  end.

(** The decimal digits of the Unicode character database (version 14.0,
    the one of CPython 3.11): they come in runs of ten, from the digit zero
    to the digit nine; each run is given by its first code point. *)
Definition decimal_runs : list N :=
  [0x30; 0x660; 0x6F0; 0x7C0; 0x966; 0x9E6; 0xA66; 0xAE6; 0xB66; 0xBE6;
   0xC66; 0xCE6; 0xD66; 0xDE6; 0xE50; 0xED0; 0xF20; 0x1040; 0x1090; 0x17E0;
   0x1810; 0x1946; 0x19D0; 0x1A80; 0x1A90; 0x1B50; 0x1BB0; 0x1C40; 0x1C50;
   0xA620; 0xA8D0; 0xA900; 0xA9D0; 0xA9F0; 0xAA50; 0xABF0; 0xFF10;
   0x104A0; 0x10D30; 0x11066; 0x110F0; 0x11136; 0x111D0; 0x112F0; 0x11450;
   0x114D0; 0x11650; 0x116C0; 0x11730; 0x118E0; 0x11950; 0x11C50; 0x11D50;
   0x11DA0; 0x16A60; 0x16AC0; 0x16B50;
   0x1D7CE; 0x1D7D8; 0x1D7E2; 0x1D7EC; 0x1D7F6;
   0x1E140; 0x1E2F0; 0x1E950; 0x1FBF0]%N.

(** The value of a decimal digit, [None] for any other character. *)
Definition decimal (cp : N) : option Z :=
  match List.find (λ first, (first <=? cp)%N && (cp <? first + 10)%N) decimal_runs with
  | Some first => Some (Z.of_N (cp - first))
  | None => None
  end.

(** The characters matched by [\d]. *)
Definition isdecimal (cp : N) : bool :=
  match decimal cp with
  | Some _ => true
  | None => false
  end.

(** The characters matched by [\s] and removed by [str.strip()]. *)
Definition isspace (cp : N) : bool :=
  ((9 <=? cp)%N && (cp <=? 13)%N) || ((28 <=? cp)%N && (cp <=? 32)%N)
  || (cp =? 0x85)%N || (cp =? 0xA0)%N || (cp =? 0x1680)%N
  || ((0x2000 <=? cp)%N && (cp <=? 0x200A)%N)
  || (cp =? 0x2028)%N || (cp =? 0x2029)%N || (cp =? 0x202F)%N
  || (cp =? 0x205F)%N || (cp =? 0x3000)%N.

Definition is_space (c : char) : bool := isspace (code c).

(** [s.strip()] *)
Fixpoint lstrip_chars (cs : list char) : list char :=
  match cs with
  | c :: cs' => if is_space c then lstrip_chars cs' else cs
  | [] => []
  end.

Fixpoint rstrip_chars (cs : list char) : list char :=
  match cs with
  | c :: cs' =>
      match rstrip_chars cs' with
      | [] => if is_space c then [] else [c]
      | r => c :: r
      end
  | [] => []
  end.

Definition str_strip (s : string) : string :=
  text (lstrip_chars (rstrip_chars (chars s))).

(** *** [int]

    [int(s)] first turns [s] into ASCII: a character below 127 stays, any
    other whitespace becomes a space, any other decimal digit becomes the
    ASCII digit of its value, and the first character that is none of
    these becomes [?] and ends the text. *)
Fixpoint to_ascii (cs : list char) : string :=
  match cs with
  | c :: cs' =>
      if (code c <? 127)%N then String (ascii_of_N (code c)) (to_ascii cs')
      else if isspace (code c) then String " " (to_ascii cs')
      else match decimal (code c) with
           | Some d => String (ascii_of_N (48 + Z.to_N d)) (to_ascii cs')
           | None => String "?" EmptyString
           end
  | [] => EmptyString
  end.

Definition is_digit (c : ascii) : bool :=
  (48 <=? Z.of_N (N_of_ascii c)) && (Z.of_N (N_of_ascii c) <=? 57).

Definition digit_val (c : ascii) : Z := Z.of_N (N_of_ascii c) - 48.

(** The ASCII characters [int] skips around a literal: space, \t, \n, \v,
    \f, \r. *)
Definition is_int_space (c : ascii) : bool :=
  let n := Z.of_N (N_of_ascii c) in
  (n =? 32) || ((9 <=? n) && (n <=? 13)).

Fixpoint lstrip (sp : ascii → bool) (s : string) : string :=
  match s with
  | String c s' => if sp c then lstrip sp s' else s
  | EmptyString => EmptyString
  end.

Fixpoint rstrip (sp : ascii → bool) (s : string) : string :=
  match s with
  | String c s' =>
      match rstrip sp s' with
      | EmptyString => if sp c then EmptyString else String c EmptyString
      | r => String c r
      end
  | EmptyString => EmptyString
  end.

Definition strip (sp : ascii → bool) (s : string) : string :=
  lstrip sp (rstrip sp s).

(** Digits of a decimal literal, single underscores allowed between
    digits: the value and the number of digits. [prev] tells whether the
    previous character was a digit. *)
Fixpoint int_digits (acc : Z) (count : nat) (prev : bool) (s : string)
    : option (Z * nat) :=
  match s with
  | EmptyString => if prev then Some (acc, count) else None
  | String c s' =>
      if is_digit c then int_digits (10 * acc + digit_val c) (S count) true s'
      else if Ascii.eqb c "_" && prev then int_digits acc count false s'
      else None
  end.

(** The default of [sys.get_int_max_str_digits()]. *)
Definition max_str_digits : nat := 4300.

(** The integer of an ASCII text, base 10: optional surrounding
    whitespace, an optional sign, then at most [max_str_digits] digits;
    anything else is a [ValueError]. *)
Definition from_string (a : string) : result Z :=
  let body := strip is_int_space a in
  let '(neg, ds) :=
    match body with
    | String "-" r => (true, r)
    | String "+" r => (false, r)
    | _ => (false, body)
    end in
  match int_digits 0 0 false ds with
  | Some (n, count) =>
      if (count <=? max_str_digits)%nat then Ok (if neg then - n else n)
      else Raise ValueError
  | None => Raise ValueError
  end.

(** [int(s)] for a string [s]. *)
Definition int (s : string) : result Z := from_string (to_ascii (chars s)).

(** [d.get(k, default)] *)
Definition get (d : gmap string string) (k : string) (default : string) : string :=
  match d !! k with
  | Some v => v
  | None => default
  end.

(** [k in d] *)
Definition contains (d : gmap string string) (k : string) : bool :=
  bool_decide (is_Some (d !! k)).

(** Truthiness of a string. *)
Definition truthy (s : string) : bool :=
  match s with
  | EmptyString => false
  | _ => true
  end.

(** Truthiness of an optional integer: [None] and [0] are false. *)
Definition truthy_int (o : option Z) : bool :=
  match o with
  | Some z => negb (z =? 0)
  | None => false
  end.

(** Truthiness of an optional string. *)
Definition truthy_str (o : option string) : bool :=
  match o with
  | Some s => truthy s
  | None => false
  end.

(** [s.split(',')] *)
Fixpoint split_comma (s : string) : list string :=
  match s with
  | String c s' =>
      if Ascii.eqb c "," then EmptyString :: split_comma s'
      else match split_comma s' with
           | h :: t => String c h :: t
           | [] => [String c EmptyString]
           end
  | EmptyString => [EmptyString]
  end.

(** [[int(x.strip()) for x in xs]] *)
Fixpoint ints (xs : list string) : result (list Z) :=
  match xs with
  | [] => Ok []
  | x :: xs' =>
      n <- int (str_strip x);;
      ns <- ints xs';;
      Ok (n :: ns)
  end.

End Py.

(** ** Regular expressions used by the scripts *)

Module Re.

(** [\d{n}] at the head of the characters [cs]: the matched characters and
    the rest. *)
Fixpoint digits (n : nat) (cs : list Py.char) : option (list Py.char * list Py.char) :=
  match n with
  | O => Some ([], cs)
  | S n' =>
      match cs with
      | c :: cs' =>
          if Py.isdecimal (Py.code c) then
            match digits n' cs' with
            | Some (m, r) => Some (c :: m, r)
            | None => None
            end
          else None
      | [] => None
      end
  end.

(** [re.match(r'^(\d{4})', s)]: group 1 of the match, if any. *)
Definition match_year (s : string) : option string :=
  match digits 4 (Py.chars s) with
  | Some (m, _) => Some (Py.text m)
  | None => None
  end.

(** The longest prefix of [s] without [>], and what follows it. *)
Fixpoint span_not_gt (s : string) : string * string :=
  match s with
  | String c s' =>
      if Ascii.eqb c ">" then (EmptyString, s)
      else let '(run, rest) := span_not_gt s' in (String c run, rest)
  | EmptyString => (EmptyString, EmptyString)
  end.

(** [([^>]+)>] at the head of [s]: the group. The greedy run must be
    non-empty and be followed by [>]; a shorter run is followed by a
    character of the run, never by [>], so backtracking finds nothing. *)
Definition tag_body (s : string) : option string :=
  match span_not_gt s with
  | (String c run, String ">" _) => Some (String c run)
  | _ => None
  end.

(** [re.findall(r'<([^>]+)>', s)], scanning left to right. After a match
    the scan resumes behind it: [skip] counts the characters of the
    match still to pass over. *)
Fixpoint findall_tags_from (skip : nat) (s : string) : list string :=
  match s with
  | String c s' =>
      match skip with
      | S k => findall_tags_from k s'
      | O =>
          if Ascii.eqb c "<" then
            match tag_body s' with
            | Some t => t :: findall_tags_from (S (String.length t)) s'
            | None => findall_tags_from 0 s'
            end
          else findall_tags_from 0 s'
      end
  | EmptyString => []
  end.

Definition findall_tags (s : string) : list string := findall_tags_from 0 s.

(** [re.sub(r'\s+', ' ', s)]: every maximal run of whitespace becomes one
    space. [in_run] tells whether the previous character was whitespace. *)
Fixpoint sub_spaces_from (in_run : bool) (cs : list Py.char) : list Py.char :=
  match cs with
  | c :: cs' =>
      if Py.is_space c then
        if in_run then sub_spaces_from true cs'
        else Py.Char 32 (String " " EmptyString) :: sub_spaces_from true cs'
      else c :: sub_spaces_from false cs'
  | [] => []
  end.

Definition sub_spaces (s : string) : string :=
  Py.text (sub_spaces_from false (Py.chars s)).

End Re.

(** ** xml.etree.ElementTree.iterparse

    [iterparse(file, events=('start','end'))] is modelled by the sequence of
    events it yields. Every element other than the root is referenced only
    by its own two events, so it is carried by value; the root object is
    shared between the parser (its [end] event comes last) and the
    extractors, which call [root.clear()], so events on the root refer to
    the root held by the extractor. *)

Module ET.

Record Element := { tag : string; attrib : gmap string string }.

Inductive elem_ref :=
  | Root
  | Node (e : Element).

Inductive event_kind := start | end_.

Definition event : Type := event_kind * elem_ref.

(** What opening and parsing an input path gives. *)
Inductive file :=
  | Missing                       (* no such file *)
  | Unparsable                    (* no first event: the markup is broken *)
  | Document (root : Element) (events : list event) (broken : bool).
    (* the root of the first event, the events after it, and whether
       the markup breaks after them *)

Definition deref (root : Element) (r : elem_ref) : Element :=
  match r with
  | Root => root
  | Node e => e
  end.

(** [e.clear()]: the tag stays, the attributes go. *)
Definition clear (e : Element) : Element :=
  {| tag := tag e; attrib := ∅ |}.

(** The root after [elem.clear(); root.clear()]. *)
Definition clear_both (root : Element) (r : elem_ref) : Element :=
  clear (match r with Root => clear root | Node _ => root end).

Definition is_row_end (root : Element) (ev : event) : bool :=
  match ev.1 with
  | end_ => String.eqb (tag (deref root ev.2)) "row"
  | start => false
  end.

End ET.

Inductive control := Continue | Break.

(** ** The file system and the process

    [open_xml] tells what reading an input path gives, [can_write] whether
    an output path can be created. A run ends with an exit status and the
    file it wrote, if any. *)

Record world := {
  open_xml : string → ET.file;
  can_write : string → bool;
}.

Definition path_exists (w : world) (path : string) : bool :=
  match open_xml w path with
  | ET.Missing => false
  | _ => true
  end.

Record outcome (content : Type) := {
  exit_code : Z;
  written : option (string * content);
}.
Arguments exit_code {content} _.
Arguments written {content} _.

(** The end of a process whose main function returned or raised: an
    uncaught exception other than [SystemExit] gives status 1. *)
Definition run_process {content} (m : result (string * content)) : outcome content :=
  match m with
  | Ok f => {| exit_code := 0; written := Some f |}
  | Raise (SystemExit c) => {| exit_code := c; written := None |}
  | Raise _ => {| exit_code := 1; written := None |}
  end.

(** ** parser.py *)

Module Parser.

(** [extract_year_from_date] *)
Definition extract_year_from_date (date_string : string) : result Z :=
  returned <- try_except_ValueError
    (match Re.match_year date_string with
     | Some g1 => y <- Py.int g1;; Ok (Some y)
     | None => Ok None
     end)
    (Ok None);;
  Ok (default 0 returned).

(** [should_include_post_by_year] *)
Definition should_include_post_by_year (post_attrs : gmap string string)
    (min_year max_year : option Z) (specific_years : option (gset Z))
    : result bool :=
  if bool_decide (min_year = None) && bool_decide (max_year = None)
     && negb (bool_decide (default ∅ specific_years ≠ ∅))
  then Ok true
  else
    let creation_date := Py.get post_attrs "CreationDate" "" in
    if negb (Py.truthy creation_date) then Ok true
    else
      post_year <- extract_year_from_date creation_date;;
      if bool_decide (default ∅ specific_years ≠ ∅)
         && negb (bool_decide (post_year ∈ default ∅ specific_years))
      then Ok false
      else if match min_year with Some m => post_year <? m | None => false end
      then Ok false
      else if match max_year with Some m => post_year >? m | None => false end
      then Ok false
      else Ok true.

(** The local variables of [extract_posts_streaming] that the loop
    updates. *)
Record locals := {
  posts : list (gmap string string);
  extracted_count : Z;
  root : ET.Element;
}.

(** One iteration of [for event, elem in context]. *)
Definition loop_body (num_posts : Z) (min_year max_year : option Z)
    (specific_years : option (gset Z)) (l : locals) (ev : ET.event)
    : result (control * locals) :=
  if ET.is_row_end (root l) ev then
    let elem := ET.deref (root l) ev.2 in
    r <-
      (if extracted_count l <? num_posts then
         let post_data := ET.attrib elem in
         keep <- should_include_post_by_year post_data min_year max_year specific_years;;
         if keep then
           let l1 := {| posts := posts l ++ [post_data];
                        extracted_count := extracted_count l + 1;
                        root := root l |} in
           if extracted_count l1 >=? num_posts then Ok (Break, l1)
           else Ok (Continue, l1)
         else Ok (Continue, l)
       else Ok (Continue, l));;
    let '(ctl, l1) := r in
    match ctl with
    | Break => Ok (Break, l1)
    | Continue =>
        Ok (Continue, {| posts := posts l1;
                           extracted_count := extracted_count l1;
                           root := ET.clear_both (root l1) ev.2 |})
    end
  else Ok (Continue, l).

(** The [for] loop: the final locals and the events never pulled from
    the iterator. *)
Fixpoint loop (num_posts : Z) (min_year max_year : option Z)
    (specific_years : option (gset Z)) (l : locals)
    (events : list ET.event) (broken : bool)
    : result (locals * list ET.event) :=
  match events with
  | [] => if broken then Raise ParseError else Ok (l, [])
  | ev :: rest =>
      r <- loop_body num_posts min_year max_year specific_years l ev;;
      let '(ctl, l') := r in
      match ctl with
      | Break => Ok (l', rest)
      | Continue => loop num_posts min_year max_year specific_years l' rest broken
      end
  end.

(** The body of the [try] of [extract_posts_streaming]. *)
Definition extract_posts_try (input_file : ET.file) (num_posts : Z)
    (min_year max_year : option Z) (specific_years : option (gset Z))
    : result (locals * list ET.event) :=
  match input_file with
  | ET.Missing => Raise FileNotFoundError
  | ET.Unparsable => Raise ParseError
  | ET.Document root0 events broken =>
      loop num_posts min_year max_year specific_years
        {| posts := []; extracted_count := 0; root := root0 |} events broken
  end.

(** [extract_posts_streaming]: every exception ends in [sys.exit(1)]. *)
Definition extract_posts_streaming (input_file : ET.file) (num_posts : Z)
    (min_year max_year : option Z) (specific_years : option (gset Z))
    : result (list (gmap string string)) :=
  match extract_posts_try input_file num_posts min_year max_year specific_years with
  | Ok (l, _) => Ok (posts l)
  | Raise _ => Raise (SystemExit 1)
  end.

(** [create_output_xml]: the rows written, one per post; a failure to
    write ends in [sys.exit(1)]. *)
Definition create_output_xml (w : world) (posts : list (gmap string string))
    (output_file : string) : result (string * list (gmap string string)) :=
  if can_write w output_file then Ok (output_file, posts)
  else Raise (SystemExit 1).

(** The parsed command line. *)
Record Args := {
  arg_input_file : string;
  arg_num_posts : Z;
  arg_output : string;
  arg_verbose : bool;
  arg_min_year : option Z;
  arg_max_year : option Z;
  arg_years : option string;
}.

Definition current_year : Z := 2025.

(** [validate_arguments] *)
Definition validate_arguments (w : world) (args : Args) : result unit :=
  if arg_num_posts args <=? 0 then Raise (SystemExit 1)
  else if negb (path_exists w (arg_input_file args)) then Raise (SystemExit 1)
  else if Py.truthy_int (arg_min_year args)
          && ((default 0 (arg_min_year args) <? 2008)
              || (default 0 (arg_min_year args) >? current_year))
  then Raise (SystemExit 1)
  else if Py.truthy_int (arg_max_year args)
          && ((default 0 (arg_max_year args) <? 2008)
              || (default 0 (arg_max_year args) >? current_year))
  then Raise (SystemExit 1)
  else if Py.truthy_int (arg_min_year args) && Py.truthy_int (arg_max_year args)
          && (default 0 (arg_min_year args) >? default 0 (arg_max_year args))
  then Raise (SystemExit 1)
  else if Py.truthy_str (arg_years args)
          && (Py.truthy_int (arg_min_year args) || Py.truthy_int (arg_max_year args))
  then Raise (SystemExit 1)
  else Ok ().

(** The [specific_years] of [main]: parsed from [--years] if given;
    a [ValueError] ends in [sys.exit(1)]. *)
Definition main_specific_years (args : Args) : result (option (gset Z)) :=
  if Py.truthy_str (arg_years args) then
    match Py.ints (Py.split_comma (default "" (arg_years args))) with
    | Ok ys => Ok (Some (list_to_set ys : gset Z))
    | Raise ValueError => Raise (SystemExit 1)
    | Raise e => Raise e
    end
  else Ok None.

(** [main], up to the end of the process. *)
Definition main_body (w : world) (args : Args)
    : result (string * list (gmap string string)) :=
  _ <- validate_arguments w args;;
  specific_years <- main_specific_years args;;
  posts <- extract_posts_streaming (open_xml w (arg_input_file args))
             (arg_num_posts args) (arg_min_year args) (arg_max_year args)
             specific_years;;
  if bool_decide (posts = []) then Raise (SystemExit 1)
  else create_output_xml w posts (arg_output args).

Definition main (w : world) (args : Args) : outcome (list (gmap string string)) :=
  run_process (main_body w args).

End Parser.

(** ** parser2.py *)

Module Parser2.

(** *** class PostFilter *)

Record PostFilter := {
  min_score : option Z;
  max_score : option Z;
  post_types : list string;
  tags_include : gset string;
  tags_exclude : gset string;
  min_answers : option Z;
  has_accepted_answer : option bool;
  min_views : option Z;
  min_year : option Z;
  max_year : option Z;
  specific_years : gset Z;
}.

(** [PostFilter.__init__]; every parameter defaults to [None]. *)
Definition PostFilter_init (min_score max_score : option Z)
    (post_types : option (list string))
    (tags_include tags_exclude : option (list string))
    (min_answers : option Z) (has_accepted_answer : option bool)
    (min_views min_year max_year : option Z)
    (specific_years : option (list Z)) : PostFilter :=
  {| min_score := min_score;
     max_score := max_score;
     post_types := match post_types with
                   | Some (t :: ts) => t :: ts
                   | _ => ["1"; "2"]
                   end;
     tags_include := list_to_set (default [] tags_include);
     tags_exclude := list_to_set (default [] tags_exclude);
     min_answers := min_answers;
     has_accepted_answer := has_accepted_answer;
     min_views := min_views;
     min_year := min_year;
     max_year := max_year;
     specific_years := list_to_set (default [] specific_years) |}.

(** [PostFilter._extract_tags] *)
Definition _extract_tags (tags_text : string) : gset string :=
  if negb (Py.truthy tags_text) then ∅
  else list_to_set (Re.findall_tags tags_text).

(** [PostFilter._extract_year_from_date] *)
Definition _extract_year_from_date (date_string : string) : result Z :=
  returned <- try_except_ValueError
    (match Re.match_year date_string with
     | Some g1 => y <- Py.int g1;; Ok (Some y)
     | None => Ok None
     end)
    (Ok None);;
  Ok (default 0 returned).

(** [PostFilter.should_include_post]. Each stage tells whether it hit a
    [return False]. *)
Definition should_include_post (self : PostFilter)
    (post_attrs : gmap string string) : result bool :=
  let post_type := Py.get post_attrs "PostTypeId" "1" in
  if negb (bool_decide (post_type ∈ post_types self)) then Ok false
  else
    score <- Py.int (Py.get post_attrs "Score" "0");;
    if match min_score self with Some m => score <? m | None => false end
    then Ok false
    else if match max_score self with Some m => score >? m | None => false end
    then Ok false
    else
      rejected <-
        (match min_views self with
         | Some m =>
             if String.eqb post_type "1" then
               views <- Py.int (Py.get post_attrs "ViewCount" "0");;
               Ok (views <? m)
             else Ok false
         | None => Ok false
         end);;
      if rejected : bool then Ok false
      else
        rejected <-
          (match min_answers self with
           | Some m =>
               if String.eqb post_type "1" then
                 answer_count <- Py.int (Py.get post_attrs "AnswerCount" "0");;
                 Ok (answer_count <? m)
               else Ok false
           | None => Ok false
           end);;
        if rejected : bool then Ok false
        else if
          match has_accepted_answer self with
          | Some want =>
              String.eqb post_type "1" &&
              (let has_accepted := Py.contains post_attrs "AcceptedAnswerId" in
               (want && negb has_accepted) || (negb want && has_accepted))
          | None => false
          end
        then Ok false
        else if
          String.eqb post_type "1"
          && (bool_decide (tags_include self ≠ ∅) || bool_decide (tags_exclude self ≠ ∅))
          && (let tags_text := Py.get post_attrs "Tags" "" in
              let post_tags := _extract_tags tags_text in
              (bool_decide (tags_include self ≠ ∅)
               && negb (bool_decide (tags_include self ∩ post_tags ≠ ∅)))
              || (bool_decide (tags_exclude self ≠ ∅)
                  && bool_decide (tags_exclude self ∩ post_tags ≠ ∅)))
        then Ok false
        else if
          bool_decide (is_Some (min_year self)) || bool_decide (is_Some (max_year self))
          || bool_decide (specific_years self ≠ ∅)
        then
          let creation_date := Py.get post_attrs "CreationDate" "" in
          if Py.truthy creation_date then
            post_year <- _extract_year_from_date creation_date;;
            if bool_decide (specific_years self ≠ ∅)
               && negb (bool_decide (post_year ∈ specific_years self))
            then Ok false
            else if match min_year self with Some m => post_year <? m | None => false end
            then Ok false
            else if match max_year self with Some m => post_year >? m | None => false end
            then Ok false
            else Ok true
          else Ok true
        else Ok true.

(** *** class TopicsFormatter *)

Record TopicsFormatter := { topic_counter : Z }.

Definition TopicsFormatter_init : TopicsFormatter := {| topic_counter := 1 |}.

(** A [Topic] element: its [number] attribute and the text of its
    three children. *)
Record Topic := {
  number : string;
  Title : string;
  Question : string;
  Tags : string;
}.

(** [TopicsFormatter._process_html_content] *)
Definition _process_html_content (content : string) : string :=
  if negb (Py.truthy content) then ""
  else Py.str_strip (Re.sub_spaces content).

(** [TopicsFormatter._extract_clean_tags] *)
Definition _extract_clean_tags (tags_text : string) : string :=
  if negb (Py.truthy tags_text) then ""
  else String.concat "," (Re.findall_tags tags_text).

(** [TopicsFormatter._create_topic_element] *)
Definition _create_topic_element (self : TopicsFormatter)
    (post : gmap string string) : TopicsFormatter * Topic :=
  let label := "A." +:+ pretty (topic_counter self) in
  let self' := {| topic_counter := topic_counter self + 1 |} in
  (self',
   {| number := label;
      Title := _process_html_content (Py.get post "Title" "Untitled Question");
      Question := _process_html_content (Py.get post "Body" "");
      Tags := _extract_clean_tags (Py.get post "Tags" "") |}).

(** The [for post in questions] loop of [format_posts_to_topics_xml]:
    the children appended to the root, in order. *)
Fixpoint append_topics (self : TopicsFormatter)
    (questions : list (gmap string string)) : TopicsFormatter * list Topic :=
  match questions with
  | [] => (self, [])
  | post :: rest =>
      let '(self1, topic) := _create_topic_element self post in
      let '(self2, topics) := append_topics self1 rest in
      (self2, topic :: topics)
  end.

Definition is_question (p : gmap string string) : bool :=
  String.eqb (Py.get p "PostTypeId" "1") "1".

(** [TopicsFormatter.format_posts_to_topics_xml]: the topics written to
    [output_file]; [open] raises when the file cannot be created. *)
Definition format_posts_to_topics_xml (w : world) (self : TopicsFormatter)
    (posts : list (gmap string string)) (output_file : string)
    : result (TopicsFormatter * (string * list Topic)) :=
  let questions := List.filter is_question posts in
  let '(self', topics) := append_topics self questions in
  if can_write w output_file then Ok (self', (output_file, topics))
  else Raise OSError.

(** *** class StreamingPostExtractor *)

Record StreamingPostExtractor := {
  target_count : Z;
  post_filter : PostFilter;
  extracted_count : Z;
  total_processed : Z;
  posts : list (gmap string string);
}.

Definition StreamingPostExtractor_init (target_count : Z)
    (post_filter : PostFilter) : StreamingPostExtractor :=
  {| target_count := target_count;
     post_filter := post_filter;
     extracted_count := 0;
     total_processed := 0;
     posts := [] |}.

(** One iteration of [for event, elem in context] in
    [extract_from_file]; [root] is the local variable of that name. *)
Definition loop_body (self : StreamingPostExtractor) (root : ET.Element)
    (ev : ET.event) : result (control * (StreamingPostExtractor * ET.Element)) :=
  if ET.is_row_end root ev then
    let elem := ET.deref root ev.2 in
    let self1 := {| target_count := target_count self;
                    post_filter := post_filter self;
                    extracted_count := extracted_count self;
                    total_processed := total_processed self + 1;
                    posts := posts self |} in
    keep <- should_include_post (post_filter self1) (ET.attrib elem);;
    let '(ctl, self2) :=
      if keep : bool then
        let post_data := ET.attrib elem in
        let self2 := {| target_count := target_count self1;
                        post_filter := post_filter self1;
                        extracted_count := extracted_count self1 + 1;
                        total_processed := total_processed self1;
                        posts := posts self1 ++ [post_data] |} in
        if extracted_count self2 >=? target_count self2 then (Break, self2)
        else (Continue, self2)
      else (Continue, self1) in
    match ctl with
    | Break => Ok (Break, (self2, root))
    | Continue => Ok (Continue, (self2, ET.clear_both root ev.2))
    end
  else Ok (Continue, (self, root)).

(** The [for] loop: the extractor and root at its end, and the events
    never pulled from the iterator. *)
Fixpoint loop (self : StreamingPostExtractor) (root : ET.Element)
    (events : list ET.event) (broken : bool)
    : result (StreamingPostExtractor * ET.Element * list ET.event) :=
  match events with
  | [] => if broken then Raise ParseError else Ok (self, root, [])
  | ev :: rest =>
      r <- loop_body self root ev;;
      match r with
      | (Break, (self', root')) => Ok (self', root', rest)
      | (Continue, (self', root')) => loop self' root' rest broken
      end
  end.

(** [StreamingPostExtractor.extract_from_file]: the extractor after the
    call and the returned list; each [except] clause re-raises. *)
Definition extract_from_file (self : StreamingPostExtractor)
    (input_file : ET.file)
    : result (StreamingPostExtractor * list (gmap string string)) :=
  match input_file with
  | ET.Missing => Raise FileNotFoundError
  | ET.Unparsable => Raise ParseError
  | ET.Document root events broken =>
      r <- loop self root events broken;;
      Ok (r.1.1, posts r.1.1)
  end.

(** *** The command line *)

Record Args := {
  arg_input_file : string;
  arg_num_posts : Z;
  arg_output : string;
  arg_questions_only : bool;
  arg_answers_only : bool;
  arg_min_score : option Z;
  arg_max_score : option Z;
  arg_min_answers : option Z;
  arg_min_views : option Z;
  arg_has_accepted : bool;
  arg_no_accepted : bool;
  arg_include_tags : option string;
  arg_exclude_tags : option string;
  arg_min_year : option Z;
  arg_max_year : option Z;
  arg_years : option string;
  arg_verbose : bool;
}.

Definition current_year : Z := 2025.

(** [validate_arguments] *)
Definition validate_arguments (w : world) (args : Args) : result unit :=
  if arg_num_posts args <=? 0 then Raise ValueError
  else if negb (path_exists w (arg_input_file args)) then Raise FileNotFoundError
  else if arg_questions_only args && arg_answers_only args then Raise ValueError
  else if arg_has_accepted args && arg_no_accepted args then Raise ValueError
  else if Py.truthy_int (arg_min_year args)
          && ((default 0 (arg_min_year args) <? 2008)
              || (default 0 (arg_min_year args) >? current_year))
  then Raise ValueError
  else if Py.truthy_int (arg_max_year args)
          && ((default 0 (arg_max_year args) <? 2008)
              || (default 0 (arg_max_year args) >? current_year))
  then Raise ValueError
  else if Py.truthy_int (arg_min_year args) && Py.truthy_int (arg_max_year args)
          && (default 0 (arg_min_year args) >? default 0 (arg_max_year args))
  then Raise ValueError
  else if Py.truthy_str (arg_years args)
          && (Py.truthy_int (arg_min_year args) || Py.truthy_int (arg_max_year args))
  then Raise ValueError
  else Ok ().

(** [[tag.strip() for tag in text.split(',')]] *)
Definition split_tags (text : string) : list string :=
  Py.str_strip <$> Py.split_comma text.

(** [create_post_filter] *)
Definition create_post_filter (args : Args) : result PostFilter :=
  let post_types :=
    if arg_questions_only args then ["1"]
    else if arg_answers_only args then ["2"]
    else ["1"; "2"] in
  let tags_include :=
    if Py.truthy_str (arg_include_tags args)
    then Some (split_tags (default "" (arg_include_tags args))) else None in
  let tags_exclude :=
    if Py.truthy_str (arg_exclude_tags args)
    then Some (split_tags (default "" (arg_exclude_tags args))) else None in
  let has_accepted_answer :=
    if arg_has_accepted args then Some true
    else if arg_no_accepted args then Some false
    else None in
  specific_years <-
    (if Py.truthy_str (arg_years args) then
       ys <- Py.ints (Py.split_comma (default "" (arg_years args)));;
       Ok (Some ys)
     else Ok None);;
  Ok (PostFilter_init (arg_min_score args) (arg_max_score args)
        (Some post_types) tags_include tags_exclude (arg_min_answers args)
        has_accepted_answer (arg_min_views args) (arg_min_year args)
        (arg_max_year args) specific_years).

(** The body of the [try] of [main]. *)
Definition main_try (w : world) (args : Args) : result (string * list Topic) :=
  _ <- validate_arguments w args;;
  post_filter <- create_post_filter args;;
  let extractor := StreamingPostExtractor_init (arg_num_posts args) post_filter in
  r <- extract_from_file extractor (open_xml w (arg_input_file args));;
  let posts := r.2 in
  if bool_decide (posts = []) then Raise (SystemExit 1)
  else
    let formatter := TopicsFormatter_init in
    out <- format_posts_to_topics_xml w formatter posts (arg_output args);;
    Ok out.2.

(** [main]: [except Exception] turns every exception but [SystemExit]
    into [sys.exit(1)]. *)
Definition main_body (w : world) (args : Args) : result (string * list Topic) :=
  match main_try w args with
  | Ok f => Ok f
  | Raise (SystemExit c) => Raise (SystemExit c)
  | Raise _ => Raise (SystemExit 1)
  end.

Definition main (w : world) (args : Args) : outcome (list Topic) :=
  run_process (main_body w args).

End Parser2.

(** * Vocabulary of the properties *)

Local Open Scope list_scope.




(** The string begins with four ASCII digits. *)
Definition four_ascii_digit_prefix (s : string) : Prop :=
  ∃ c1 c2 c3 c4 rest,
    s = String c1 (String c2 (String c3 (String c4 rest)))
    ∧ Py.is_digit c1 = true ∧ Py.is_digit c2 = true
    ∧ Py.is_digit c3 = true ∧ Py.is_digit c4 = true.


(** The date [２０１５-07-14], written with fullwidth digits in the year. *)
Definition fullwidth_date : string := "２０１５-07-14".

(** A tag token: at least one character, none of them [>]. *)
Definition is_tag (t : string) : Prop :=
  t ≠ "" ∧ ∀ i, String.get i t ≠ Some ">"%char.

(** The tag string [<tag1><tag2>...<tagN>] of the tokens [tags]. *)
Fixpoint tag_string (tags : list string) : string :=
  match tags with
  | [] => ""
  | t :: rest => String "<" (t +:+ String ">" (tag_string rest))
  end.

(** The filter with its year constraints removed. *)
Definition without_years (f : Parser2.PostFilter) : Parser2.PostFilter :=
  {| Parser2.min_score := Parser2.min_score f;
     Parser2.max_score := Parser2.max_score f;
     Parser2.post_types := Parser2.post_types f;
     Parser2.tags_include := Parser2.tags_include f;
     Parser2.tags_exclude := Parser2.tags_exclude f;
     Parser2.min_answers := Parser2.min_answers f;
     Parser2.has_accepted_answer := Parser2.has_accepted_answer f;
     Parser2.min_views := Parser2.min_views f;
     Parser2.min_year := None;
     Parser2.max_year := None;
     Parser2.specific_years := ∅ |}.

(** An attribute that is absent or holds an integer literal. *)
Definition numeric_or_absent (r : gmap string string) (k : string) : Prop :=
  match r !! k with
  | Some v => ∃ z, Py.int v = Ok z
  | None => True
  end.

(** The records of an event stream, in order: the attributes seen at each
    [end] event of a [row] element by a loop that never stops early
    (clearing the root after each of them, as both extractors do). *)
Fixpoint rows (root : ET.Element) (events : list ET.event)
    : list (gmap string string) :=
  match events with
  | [] => []
  | ev :: rest =>
      if ET.is_row_end root ev
      then ET.attrib (ET.deref root ev.2) :: rows (ET.clear_both root ev.2) rest
      else rows root rest
  end.

(** The accept predicate returned [True]. *)
Definition accepts (f : Parser2.PostFilter) (r : gmap string string) : bool :=
  match Parser2.should_include_post f r with
  | Ok true => true
  | _ => false
  end.

Definition accepts_by_year (min_year max_year : option Z)
    (specific_years : option (gset Z)) (r : gmap string string) : bool :=
  match Parser.should_include_post_by_year r min_year max_year specific_years with
  | Ok true => true
  | _ => false
  end.

(** The events of a flat document [<posts><row .../>...<row .../></posts>]
    after the first one. *)
Definition row_elem (r : gmap string string) : ET.elem_ref :=
  ET.Node {| ET.tag := "row"; ET.attrib := r |}.

Definition flat_events (records : list (gmap string string)) : list ET.event :=
  List.concat ((λ r, [(ET.start, row_elem r); (ET.end_, row_elem r)]) <$> records)
  ++ [(ET.end_, ET.Root)].

Definition posts_root : ET.Element := {| ET.tag := "posts"; ET.attrib := ∅ |}.

(** The extractor of [parser2.py] after one more record, rejected
    ([bump]) or accepted ([push]). *)
Definition bump (self : Parser2.StreamingPostExtractor) : Parser2.StreamingPostExtractor :=
  {| Parser2.target_count := Parser2.target_count self;
     Parser2.post_filter := Parser2.post_filter self;
     Parser2.extracted_count := Parser2.extracted_count self;
     Parser2.total_processed := Parser2.total_processed self + 1;
     Parser2.posts := Parser2.posts self |}.

Definition push (self : Parser2.StreamingPostExtractor) (r : gmap string string)
    : Parser2.StreamingPostExtractor :=
  {| Parser2.target_count := Parser2.target_count self;
     Parser2.post_filter := Parser2.post_filter self;
     Parser2.extracted_count := Parser2.extracted_count self + 1;
     Parser2.total_processed := Parser2.total_processed self + 1;
     Parser2.posts := Parser2.posts self ++ [r] |}.

(** The locals of [extract_posts_streaming] after the root was cleared
    ([cleared]) and after a record was appended ([pushed]). *)
Definition cleared (l : Parser.locals) (ev : ET.event) : Parser.locals :=
  {| Parser.posts := Parser.posts l;
     Parser.extracted_count := Parser.extracted_count l;
     Parser.root := ET.clear_both (Parser.root l) ev.2 |}.

Definition pushed (l : Parser.locals) (r : gmap string string) : Parser.locals :=
  {| Parser.posts := Parser.posts l ++ [r];
     Parser.extracted_count := Parser.extracted_count l + 1;
     Parser.root := Parser.root l |}.

(** The scenario of five records: post types 1, 2, 1, 1, 2 with scores
    10, 1, -3, 7, 2; a filter with [min_score=0] that allows the post
    type "1" only. *)
Definition post (post_type score : string) : gmap string string :=
  {[ "PostTypeId" := post_type; "Score" := score ]}.

Definition scenario_records : list (gmap string string) :=
  [post "1" "10"; post "2" "1"; post "1" "-3"; post "1" "7"; post "2" "2"].

Definition scenario_filter : Parser2.PostFilter :=
  Parser2.PostFilter_init (Some 0) None (Some ["1"]) None None None None None
    None None None.

Definition scenario_extractor_end : Parser2.StreamingPostExtractor :=
  {| Parser2.target_count := 2;
     Parser2.post_filter := scenario_filter;
     Parser2.extracted_count := 2;
     Parser2.total_processed := 4;
     Parser2.posts := [post "1" "10"; post "1" "7"] |}.

(** The topic made from a post when the counter stands at [n]. *)
Definition topic_of (n : Z) (p : gmap string string) : Parser2.Topic :=
  (Parser2._create_topic_element {| Parser2.topic_counter := n |} p).2.

(** A file system with the scenario as [posts.xml] and a document
    without rows as [empty.xml], and command lines over it. *)
Definition scenario_world : world :=
  {| open_xml := λ path,
       if String.eqb path "posts.xml"
       then ET.Document posts_root (flat_events scenario_records) false
       else if String.eqb path "empty.xml"
       then ET.Document posts_root (flat_events []) false
       else ET.Missing;
     can_write := λ _, true |}.

Definition scenario_args (min_score : Z) : Parser2.Args :=
  {| Parser2.arg_input_file := "posts.xml";
     Parser2.arg_num_posts := 2;
     Parser2.arg_output := "extracted_topics.xml";
     Parser2.arg_questions_only := true;
     Parser2.arg_answers_only := false;
     Parser2.arg_min_score := Some min_score;
     Parser2.arg_max_score := None;
     Parser2.arg_min_answers := None;
     Parser2.arg_min_views := None;
     Parser2.arg_has_accepted := false;
     Parser2.arg_no_accepted := false;
     Parser2.arg_include_tags := None;
     Parser2.arg_exclude_tags := None;
     Parser2.arg_min_year := None;
     Parser2.arg_max_year := None;
     Parser2.arg_years := None;
     Parser2.arg_verbose := false |}.

Definition echo_args (input_file : string) : Parser.Args :=
  {| Parser.arg_input_file := input_file;
     Parser.arg_num_posts := 2;
     Parser.arg_output := "extracted_posts.xml";
     Parser.arg_verbose := false;
     Parser.arg_min_year := None;
     Parser.arg_max_year := None;
     Parser.arg_years := Some "2015, 2018" |}.

(** The filter without the constraints that apply to questions only. *)
Definition without_question_constraints (f : Parser2.PostFilter) : Parser2.PostFilter :=
  {| Parser2.min_score := Parser2.min_score f;
     Parser2.max_score := Parser2.max_score f;
     Parser2.post_types := Parser2.post_types f;
     Parser2.tags_include := ∅;
     Parser2.tags_exclude := ∅;
     Parser2.min_answers := None;
     Parser2.has_accepted_answer := None;
     Parser2.min_views := None;
     Parser2.min_year := Parser2.min_year f;
     Parser2.max_year := Parser2.max_year f;
     Parser2.specific_years := Parser2.specific_years f |}.

(** What a record has to satisfy to pass a filter: its post type is
    allowed; its score is an integer within the score bounds; if it is a
    question, its view and answer counts are integers that reach the
    minima, its AcceptedAnswerId is there or not as required, it has one
    of the tags to include if any is configured and none of the tags to
    exclude; and if its CreationDate is not empty, the year of that date
    is among the specific years if any is configured and within the year
    bounds. *)
Definition satisfies (f : Parser2.PostFilter) (r : gmap string string) : Prop :=
  let post_type := Py.get r "PostTypeId" "1" in
  let post_tags := Parser2._extract_tags (Py.get r "Tags" "") in
  post_type ∈ Parser2.post_types f
  ∧ (∃ score, Py.int (Py.get r "Score" "0") = Ok score
       ∧ (∀ m, Parser2.min_score f = Some m → m ≤ score)
       ∧ (∀ m, Parser2.max_score f = Some m → score ≤ m))
  ∧ (post_type = "1" →
       (∀ m, Parser2.min_views f = Some m →
          ∃ views, Py.int (Py.get r "ViewCount" "0") = Ok views ∧ m ≤ views)
       ∧ (∀ m, Parser2.min_answers f = Some m →
            ∃ answers, Py.int (Py.get r "AnswerCount" "0") = Ok answers ∧ m ≤ answers)
       ∧ (Parser2.has_accepted_answer f = Some true → is_Some (r !! "AcceptedAnswerId"))
       ∧ (Parser2.has_accepted_answer f = Some false → r !! "AcceptedAnswerId" = None)
       ∧ (Parser2.tags_include f ≠ ∅ → Parser2.tags_include f ∩ post_tags ≠ ∅)
       ∧ Parser2.tags_exclude f ∩ post_tags = ∅)
  ∧ (Py.get r "CreationDate" "" ≠ "" →
       ∃ year, Parser2._extract_year_from_date (Py.get r "CreationDate" "") = Ok year
         ∧ (Parser2.specific_years f ≠ ∅ → year ∈ Parser2.specific_years f)
         ∧ (∀ m, Parser2.min_year f = Some m → m ≤ year)
         ∧ (∀ m, Parser2.max_year f = Some m → year ≤ m)).

(** A string without a comma. *)
Definition comma_free (s : string) : Prop :=
  ∀ i, String.get i s ≠ Some ","%char.


(** A command line with tag options. *)
Definition tag_args : Parser2.Args :=
  {| Parser2.arg_input_file := "posts.xml";
     Parser2.arg_num_posts := 2;
     Parser2.arg_output := "extracted_topics.xml";
     Parser2.arg_questions_only := false;
     Parser2.arg_answers_only := false;
     Parser2.arg_min_score := None;
     Parser2.arg_max_score := None;
     Parser2.arg_min_answers := None;
     Parser2.arg_min_views := None;
     Parser2.arg_has_accepted := false;
     Parser2.arg_no_accepted := false;
     Parser2.arg_include_tags := Some "algebra,geometry";
     Parser2.arg_exclude_tags := Some "homework";
     Parser2.arg_min_year := None;
     Parser2.arg_max_year := None;
     Parser2.arg_years := None;
     Parser2.arg_verbose := false |}.

(** * Properties *)

(** ** Strings as sequences of characters *)

Section Utf8.








End Utf8.

(** ** Decimal literals and the year extractor *)

Section Digits.



Lemma digit_val_range c : Py.is_digit c = true → 0 ≤ Py.digit_val c ≤ 9.
Proof.
  unfold Py.is_digit, Py.digit_val.
  intros [H1 H2]%andb_prop. apply Z.leb_le in H1, H2. lia.
Qed.



(** *** The table of decimal digits *)











(** *** The year pattern *)






(** The only exception of [int] is [ValueError]. *)
Lemma int_Raise s e : Py.int s = Raise e → e = ValueError.
Proof.
  unfold Py.int, Py.from_string.
  destruct (match Py.strip Py.is_int_space (Py.to_ascii (Py.chars s)) with
            | String "-" r => (true, r)
            | String "+" r => (false, r)
            | _ => (false, Py.strip Py.is_int_space (Py.to_ascii (Py.chars s)))
            end) as [neg ds].
  destruct (Py.int_digits 0 0 false ds) as [[n count]|]; [|congruence].
  destruct (count <=? Py.max_str_digits)%nat; congruence.
Qed.

Lemma extract_year_total s : ∃ y, Parser.extract_year_from_date s = Ok y.
Proof.
  unfold Parser.extract_year_from_date.
  destruct (Re.match_year s) as [g|]; cbn; [|by eexists].
  destruct (Py.int g) as [y|e] eqn:Hg; cbn; [by eexists|].
  apply int_Raise in Hg as ->. cbn. by eexists.
Qed.


End Digits.

(** C4 (counterexample). The date [fullwidth_date] starts with the four
    fullwidth digits U+FF12 U+FF10 U+FF11 U+FF15, none of them an ASCII
    digit, so it does not begin with four ASCII digits; both copies of
    the year extractor return 2015 on it, not 0. *)
Lemma C4_counterexample :
  Py.code <$> Py.chars fullwidth_date
  = [0xFF12; 0xFF10; 0xFF11; 0xFF15; 45; 48; 55; 45; 49; 52]%N
  ∧ ¬ four_ascii_digit_prefix fullwidth_date
  ∧ Parser.extract_year_from_date fullwidth_date = Ok 2015
  ∧ Parser2._extract_year_from_date fullwidth_date = Ok 2015.
Proof.
  split; [by vm_compute|]. split; [|by vm_compute].
  intros (c1 & c2 & c3 & c4 & rest & Heq & H1 & _).
  injection Heq as <- _. vm_compute in H1. discriminate.
Qed.



(** ** The tag extractor *)

Section Tags.

Lemma no_gt_cons c t :
  (∀ i, String.get i (String c t) ≠ Some ">"%char) →
  c ≠ ">"%char ∧ ∀ i, String.get i t ≠ Some ">"%char.
Proof.
  intros H; split.
  - intros ->. by apply (H O).
  - intros i. apply (H (S i)).
Qed.

Lemma span_not_gt_tag t rest :
  (∀ i, String.get i t ≠ Some ">"%char) →
  Re.span_not_gt (t +:+ String ">" rest) = (t, String ">" rest).
Proof.
  induction t as [|c t IH]; intros Hno; [reflexivity|].
  apply no_gt_cons in Hno as [Hc Hno].
  change (String c t +:+ String ">" rest) with (String c (t +:+ String ">" rest)).
  cbn [Re.span_not_gt]. rewrite (IH Hno).
  by destruct (Ascii.eqb_spec c ">").
Qed.

Lemma tag_body_tag t rest :
  is_tag t → Re.tag_body (t +:+ String ">" rest) = Some t.
Proof.
  intros [Hne Hno]. unfold Re.tag_body.
  rewrite span_not_gt_tag by done.
  by destruct t.
Qed.

(** Passing over a match: the scan resumes behind the closing [>]. *)
Lemma findall_skip_match t c rest :
  Re.findall_tags_from (S (String.length t)) (t +:+ String c rest)
  = Re.findall_tags_from 0 rest.
Proof. induction t as [|d t IH]; [reflexivity|exact IH]. Qed.

Lemma findall_tag_string tags :
  Forall is_tag tags → Re.findall_tags (tag_string tags) = tags.
Proof.
  unfold Re.findall_tags.
  induction 1 as [|t tags Ht _ IH]; [reflexivity|].
  cbn [tag_string Re.findall_tags_from]. cbn [Ascii.eqb Bool.eqb].
  rewrite tag_body_tag by done.
  by rewrite findall_skip_match, IH.
Qed.

End Tags.

(** C5. On a tag string [<tag1><tag2>...<tagN>] the tag extractor returns
    the set of the N tokens, without their angle brackets; on
    ["<a><b><c>"] that is the set of a, b and c, and on the empty string
    it is the empty set. *)
Theorem C5_extract_tags :
  (∀ tags, Forall is_tag tags →
     Parser2._extract_tags (tag_string tags) = list_to_set tags)
  ∧ Parser2._extract_tags "<a><b><c>" = {["a"; "b"; "c"]}
  ∧ Parser2._extract_tags "" = ∅.
Proof.
  assert (Hall : ∀ tags, Forall is_tag tags →
            Parser2._extract_tags (tag_string tags) = list_to_set tags).
  { intros tags Htags. unfold Parser2._extract_tags.
    destruct tags as [|t tags]; [reflexivity|].
    rewrite findall_tag_string by done. reflexivity. }
  split; [exact Hall|]. split; [|reflexivity].
  change "<a><b><c>" with (tag_string ["a"; "b"; "c"]).
  rewrite Hall; [set_solver|].
  repeat constructor; try discriminate;
    intros [|[|i]]; cbn; discriminate.
Qed.

Lemma C5_witness :
  Forall is_tag ["algebra"; "geometry"]
  ∧ Parser2._extract_tags "<algebra><geometry>" = list_to_set ["algebra"; "geometry"].
Proof.
  assert (Htags : Forall is_tag ["algebra"; "geometry"]).
  { repeat constructor; try discriminate;
      intros i; do 9 (try (destruct i as [|i]; [cbn; discriminate|]));
      cbn; discriminate. }
  split; [exact Htags|].
  exact (proj1 C5_extract_tags ["algebra"; "geometry"] Htags).
Defined.

(** ** The accept predicate of [PostFilter] *)

Section Filter.
Import Parser2.

Lemma get_Some (r : gmap string string) k d v : r !! k = Some v → Py.get r k d = v.
Proof. unfold Py.get. by intros ->. Qed.

Lemma get_None (r : gmap string string) k d : r !! k = None → Py.get r k d = d.
Proof. unfold Py.get. by intros ->. Qed.




(** A record whose post type is not allowed is rejected at once. *)
Lemma should_include_post_type_out self r :
  Py.get r "PostTypeId" "1" ∉ post_types self →
  should_include_post self r = Ok false.
Proof.
  intros Hout. unfold should_include_post.
  by rewrite bool_decide_eq_false_2.
Qed.





Lemma extract_year2_total s : ∃ y, _extract_year_from_date s = Ok y.
Proof. exact (extract_year_total s). Qed.

Lemma int_get_numeric r k :
  numeric_or_absent r k → ∃ z, Py.int (Py.get r k "0") = Ok z.
Proof.
  unfold numeric_or_absent, Py.get.
  destruct (r !! k); [done|]. intros _. by exists 0.
Qed.


End Filter.

(** C10. A filter built with no post type constraint allows the post
    types "1" and "2" only: whatever its other constraints are, it rejects
    every record whose PostTypeId is another value. *)
Theorem C10_default_post_types
    (min_score max_score : option Z) (tags_include tags_exclude : option (list string))
    (min_answers : option Z) (has_accepted_answer : option bool)
    (min_views min_year max_year : option Z) (specific_years : option (list Z))
    (r : gmap string string) (t : string) :
  let f := Parser2.PostFilter_init min_score max_score None tags_include
             tags_exclude min_answers has_accepted_answer min_views min_year
             max_year specific_years in
  r !! "PostTypeId" = Some t → t ≠ "1" → t ≠ "2" →
  Parser2.post_types f = ["1"; "2"]
  ∧ Parser2.should_include_post f r = Ok false.
Proof.
  intros f Ht H1 H2. split; [reflexivity|].
  apply should_include_post_type_out.
  rewrite (get_Some _ _ _ _ Ht). cbn.
  intros [->|[->|Hin%elem_of_nil]%elem_of_cons]%elem_of_cons; done.
Qed.

Lemma C10_witness :
  Parser2.post_types
    (Parser2.PostFilter_init None None None None None None None None None None None)
  = ["1"; "2"]
  ∧ Parser2.should_include_post
      (Parser2.PostFilter_init None None None None None None None None None None None)
      {[ "PostTypeId" := "3" ]} = Ok false.
Proof.
  apply (C10_default_post_types None None None None None None None None None None
           {[ "PostTypeId" := "3" ]} "3"); [reflexivity|discriminate|discriminate].
Defined.

(** C8. A record whose CreationDate is absent or empty passes the year
    stage whatever the year constraints are: the full filter decides as it
    would with no year constraint, and the year-only filter accepts. *)
Theorem C8_year_stage_skipped
    (f : Parser2.PostFilter) (min_year max_year : option Z)
    (specific_years : option (gset Z)) (r : gmap string string) :
  r !! "CreationDate" = None ∨ r !! "CreationDate" = Some "" →
  Parser2.should_include_post f r = Parser2.should_include_post (without_years f) r
  ∧ Parser.should_include_post_by_year r min_year max_year specific_years = Ok true.
Proof.
  intros Hdate.
  assert (Hget : Py.get r "CreationDate" "" = "").
  { destruct Hdate as [H|H]; [by apply get_None|by apply get_Some]. }
  split.
  - unfold Parser2.should_include_post, without_years.
    cbn [Parser2.min_score Parser2.max_score Parser2.post_types
         Parser2.tags_include Parser2.tags_exclude Parser2.min_answers
         Parser2.has_accepted_answer Parser2.min_views Parser2.min_year
         Parser2.max_year Parser2.specific_years].
    rewrite Hget. cbn [Py.truthy].
    rewrite (bool_decide_eq_false_2 (is_Some (@None Z)))
      by (intros [y Hy]; discriminate Hy).
    rewrite (bool_decide_eq_false_2 ((∅ : gset Z) ≠ ∅))
      by (intros Hne; apply Hne; reflexivity).
    cbn [orb].
    by destruct (bool_decide (is_Some (Parser2.min_year f))
                 || bool_decide (is_Some (Parser2.max_year f))
                 || bool_decide (Parser2.specific_years f ≠ ∅)).
  - unfold Parser.should_include_post_by_year. rewrite Hget. cbn [Py.truthy negb].
    by destruct (bool_decide (min_year = None) && bool_decide (max_year = None)
                 && negb (bool_decide (default ∅ specific_years ≠ ∅))).
Qed.

Lemma C8_witness :
  Parser2.should_include_post
    (Parser2.PostFilter_init None None None None None None None None
       (Some 2015) (Some 2018) None)
    {[ "PostTypeId" := "1"; "Score" := "4" ]}
  = Parser2.should_include_post
      (without_years
         (Parser2.PostFilter_init None None None None None None None None
            (Some 2015) (Some 2018) None))
      {[ "PostTypeId" := "1"; "Score" := "4" ]}
  ∧ Parser.should_include_post_by_year {[ "PostTypeId" := "1"; "Score" := "4" ]}
      None None (Some {[ 2020 ]}) = Ok true.
Proof.
  apply C8_year_stage_skipped. left. reflexivity.
Defined.





(** ** The extraction loop of [parser2.py] *)

Section Loop2.
Import Parser2.

Lemma accepts_true f r : accepts f r = true ↔ should_include_post f r = Ok true.
Proof.
  unfold accepts. destruct (should_include_post f r) as [[]|]; split; congruence.
Qed.

Lemma accepts_false f r : should_include_post f r = Ok false → accepts f r = false.
Proof. unfold accepts. by intros ->. Qed.

Lemma loop_body_skip self root ev :
  ET.is_row_end root ev = false →
  loop_body self root ev = Ok (Continue, (self, root)).
Proof. unfold loop_body. by intros ->. Qed.

Lemma loop_body_reject self root ev :
  ET.is_row_end root ev = true →
  should_include_post (post_filter self) (ET.attrib (ET.deref root ev.2)) = Ok false →
  loop_body self root ev = Ok (Continue, (bump self, ET.clear_both root ev.2)).
Proof.
  unfold loop_body. intros -> Hf. cbn [post_filter]. by rewrite Hf.
Qed.

Lemma loop_body_accept self root ev :
  ET.is_row_end root ev = true →
  should_include_post (post_filter self) (ET.attrib (ET.deref root ev.2)) = Ok true →
  loop_body self root ev
  = if extracted_count self + 1 >=? target_count self
    then Ok (Break, (push self (ET.attrib (ET.deref root ev.2)), root))
    else Ok (Continue, (push self (ET.attrib (ET.deref root ev.2)),
                        ET.clear_both root ev.2)).
Proof.
  unfold loop_body. intros -> Hf. cbn [post_filter]. rewrite Hf.
  cbn [bind extracted_count target_count].
  by destruct (extracted_count self + 1 >=? target_count self).
Qed.

(** One iteration leaves the accepted list alone or appends the record
    of the event to it. *)
Lemma loop_body_appends self root ev ctl self' root' :
  loop_body self root ev = Ok (ctl, (self', root')) →
  (posts self' = posts self
   ∨ posts self' = posts self ++ [ET.attrib (ET.deref root ev.2)])
  ∧ post_filter self' = post_filter self
  ∧ target_count self' = target_count self.
Proof.
  destruct (ET.is_row_end root ev) eqn:Hrow.
  - destruct (should_include_post (post_filter self)
                (ET.attrib (ET.deref root ev.2))) as [[]|e] eqn:Hf.
    + rewrite (loop_body_accept _ _ _ Hrow Hf).
      destruct (_ >=? _); intros [= <- <- <-]; auto.
    + rewrite (loop_body_reject _ _ _ Hrow Hf). intros [= <- <- <-]; auto.
    + unfold loop_body. rewrite Hrow. cbn [post_filter]. by rewrite Hf.
  - rewrite (loop_body_skip _ _ _ Hrow). intros [= <- <- <-]; auto.
Qed.

Lemma rows_app root a b :
  ∃ root', rows root (a ++ b) = rows root a ++ rows root' b.
Proof.
  revert root. induction a as [|ev a IH]; intros root; [by exists root|].
  cbn [app rows]. destruct (ET.is_row_end root ev).
  - destruct (IH (ET.clear_both root ev.2)) as [root' ->]. by exists root'.
  - apply IH.
Qed.

(** What a loop that returned has done: it pulled a prefix of the events,
    counted its records and kept the accepted ones, in order. *)
Lemma loop_returns events : ∀ self root broken self' root' rest,
  loop self root events broken = Ok (self', root', rest) →
  ∃ consumed,
    events = consumed ++ rest
    ∧ posts self' = posts self
                    ++ List.filter (accepts (post_filter self)) (rows root consumed)
    ∧ total_processed self'
      = total_processed self + Z.of_nat (List.length (rows root consumed))
    ∧ extracted_count self'
      = extracted_count self
        + Z.of_nat (List.length (List.filter (accepts (post_filter self))
                              (rows root consumed))).
Proof.
  induction events as [|ev events IH]; intros self root broken self' root' rest.
  - cbn. destruct broken; [done|]. intros [= <- <- <-].
    exists []. cbn. rewrite app_nil_r. repeat split; lia.
  - cbn [loop].
    destruct (ET.is_row_end root ev) eqn:Hrow.
    + destruct (should_include_post (post_filter self)
                  (ET.attrib (ET.deref root ev.2))) as [[]|e] eqn:Hf.
      * rewrite (loop_body_accept _ _ _ Hrow Hf).
        destruct (_ >=? _); cbn [bind].
        -- intros [= <- <- <-]. exists [ev]. cbn [rows app]. rewrite Hrow.
           cbn [List.filter]. rewrite (proj2 (accepts_true _ _) Hf).
           cbn. repeat split; lia.
        -- intros (consumed & -> & Hp & Ht & He)%IH.
           exists (ev :: consumed). cbn [rows app]. rewrite Hrow.
           cbn [List.filter]. rewrite (proj2 (accepts_true _ _) Hf).
           cbn [push posts total_processed extracted_count post_filter] in Hp, Ht, He.
           rewrite Hp, Ht, He, <- app_assoc. cbn [List.length app].
           repeat split; lia.
      * rewrite (loop_body_reject _ _ _ Hrow Hf). cbn [bind].
        intros (consumed & -> & Hp & Ht & He)%IH.
        exists (ev :: consumed). cbn [rows app]. rewrite Hrow.
        cbn [List.filter]. rewrite (accepts_false _ _ Hf).
        cbn [bump posts total_processed extracted_count post_filter] in Hp, Ht, He.
        rewrite Hp, Ht, He. cbn [List.length]. repeat split; lia.
      * unfold loop_body. rewrite Hrow. cbn [post_filter]. by rewrite Hf.
    + rewrite (loop_body_skip _ _ _ Hrow). cbn [bind].
      intros (consumed & -> & Hp & Ht & He)%IH.
      exists (ev :: consumed). cbn [rows app]. by rewrite Hrow.
Qed.

Lemma filter_take_pos {A} (acc : A → bool) (l : list A) (M : nat) (r : A) :
  l !! M = Some r → acc r = true →
  (0 < List.length (List.filter acc (take (S M) l)))%nat.
Proof.
  intros Hl Hr. rewrite (take_S_r _ _ _ Hl), List.filter_app, length_app.
  cbn. rewrite Hr. cbn. lia.
Qed.

(** The loop stops at the record that brings the accepted count to the
    target: if the record of index [M] is accepted, the predicate returns
    on every record before it, and the accepted records up to it are as
    many as the target still asks for, then the loop pulls the events up
    to the [end] event of that record and no event behind it. *)
Lemma loop_stops events : ∀ self root broken (M : nat) r,
  rows root events !! M = Some r →
  should_include_post (post_filter self) r = Ok true →
  (∀ (i : nat) r', (i < M)%nat → rows root events !! i = Some r' →
     ∃ b, should_include_post (post_filter self) r' = Ok b) →
  extracted_count self
  + Z.of_nat (List.length (List.filter (accepts (post_filter self))
                             (take (S M) (rows root events))))
  = target_count self →
  ∃ pre ev rest self' root',
    loop self root events broken = Ok (self', root', rest)
    ∧ events = pre ++ ev :: rest
    ∧ rows root pre = take M (rows root events)
    ∧ rows root (pre ++ [ev]) = take (S M) (rows root events).
Proof.
  induction events as [|ev events IH]; intros self root broken M r HM Hr Hev Hcount.
  { done. }
  cbn [rows] in HM, Hev, Hcount. cbn [loop rows].
  destruct (ET.is_row_end root ev) eqn:Hrow.
  - destruct M as [|M].
    + injection HM as <-. cbn [firstn List.filter] in Hcount.
      rewrite (proj2 (accepts_true _ _) Hr), take_0 in Hcount.
      cbn [List.length List.filter] in Hcount.
      rewrite (loop_body_accept _ _ _ Hrow Hr).
      replace (extracted_count self + 1 >=? target_count self) with true
        by (symmetry; apply Z.geb_le; lia).
      cbn [bind]. exists [], ev, events. eexists _, _.
      split; [reflexivity|]. cbn [app rows firstn]. by rewrite Hrow.
    + cbn [lookup list_lookup] in HM.
      assert (Hpos := filter_take_pos (accepts (post_filter self)) _ _ _ HM
                        (proj2 (accepts_true _ _) Hr)).
      set (r0 := ET.attrib (ET.deref root ev.2)) in *.
      destruct (Hev O r0) as [b Hb]; [lia|done|].
      assert (Hev' : ∀ (i : nat) r', (i < M)%nat →
                rows (ET.clear_both root ev.2) events !! i = Some r' →
                ∃ b, should_include_post (post_filter self) r' = Ok b).
      { intros i r' Hi Hi'. apply (Hev (S i) r'); [lia|done]. }
      change (take (S (S M)) (r0 :: ?l)) with (r0 :: take (S M) l) in Hcount.
      cbn [List.filter] in Hcount.
      destruct b.
      * rewrite (proj2 (accepts_true _ _) Hb) in Hcount.
        cbn [List.length] in Hcount.
        rewrite (loop_body_accept _ _ _ Hrow Hb).
        replace (extracted_count self + 1 >=? target_count self) with false
          by (symmetry; rewrite Z.geb_leb; apply Z.leb_gt; lia).
        cbn [bind].
        destruct (IH (push self r0) (ET.clear_both root ev.2) broken M r)
          as (pre & ev' & rest & self' & root' & Hloop & -> & Hpre & Hall);
          [done|done|done|cbn [push extracted_count post_filter target_count]; lia|].
        exists (ev :: pre), ev', rest, self', root'.
        split; [done|]. cbn [app rows firstn]. rewrite Hrow.
        fold r0. by rewrite Hpre, Hall.
      * rewrite (accepts_false _ _ Hb) in Hcount.
        rewrite (loop_body_reject _ _ _ Hrow Hb). cbn [bind].
        destruct (IH (bump self) (ET.clear_both root ev.2) broken M r)
          as (pre & ev' & rest & self' & root' & Hloop & -> & Hpre & Hall);
          [done|done|done|cbn [bump extracted_count post_filter target_count]; lia|].
        exists (ev :: pre), ev', rest, self', root'.
        split; [done|]. cbn [app rows firstn]. rewrite Hrow.
        fold r0. by rewrite Hpre, Hall.
  - rewrite (loop_body_skip _ _ _ Hrow). cbn [bind].
    destruct (IH self root broken M r)
      as (pre & ev' & rest & self' & root' & Hloop & -> & Hpre & Hall);
      [done..|].
    exists (ev :: pre), ev', rest, self', root'.
    split; [done|]. cbn [app rows]. by rewrite Hrow.
Qed.

End Loop2.

(** ** The extraction loop of [parser.py] *)

Section Loop1.
Import Parser.

Variable num_posts : Z.
Variables min_year max_year : option Z.
Variable specific_years : option (gset Z).

Local Abbreviation keep :=
  (λ r, should_include_post_by_year r min_year max_year specific_years).
Local Abbreviation acc := (accepts_by_year min_year max_year specific_years).
Local Abbreviation body := (loop_body num_posts min_year max_year specific_years).
Local Abbreviation scan := (loop num_posts min_year max_year specific_years).

(** The year-only filter never raises. *)
Lemma should_include_post_by_year_total r : ∃ b, keep r = Ok b.
Proof.
  unfold should_include_post_by_year.
  destruct (extract_year_total (Py.get r "CreationDate" "")) as [y ->].
  cbn [bind].
  repeat (match goal with
          | |- ∃ b, Ok _ = Ok b => by eexists
          | |- context [if ?c then _ else _] => destruct c eqn:?
          end).
Qed.

Lemma keep_acc r : keep r = Ok (acc r).
Proof.
  unfold accepts_by_year.
  destruct (should_include_post_by_year_total r) as [[] ->]; reflexivity.
Qed.

Lemma loop1_body_skip l ev :
  ET.is_row_end (root l) ev = false → body l ev = Ok (Continue, l).
Proof. unfold loop_body. by intros ->. Qed.

Lemma loop1_body_full l ev :
  ET.is_row_end (root l) ev = true → num_posts ≤ extracted_count l →
  body l ev = Ok (Continue, cleared l ev).
Proof.
  unfold loop_body. intros -> Hfull.
  by replace (extracted_count l <? num_posts) with false
    by (symmetry; apply Z.ltb_ge; lia).
Qed.

Lemma loop1_body_row l ev :
  ET.is_row_end (root l) ev = true → extracted_count l < num_posts →
  body l ev
  = let r := ET.attrib (ET.deref (root l) ev.2) in
    if acc r then
      if extracted_count l + 1 >=? num_posts then Ok (Break, pushed l r)
      else Ok (Continue, cleared (pushed l r) ev)
    else Ok (Continue, cleared l ev).
Proof.
  unfold loop_body. intros -> Hroom.
  replace (extracted_count l <? num_posts) with true
    by (symmetry; apply Z.ltb_lt; lia).
  rewrite keep_acc. cbn [bind].
  destruct (acc _); [|reflexivity].
  cbn [extracted_count]. by destruct (_ >=? _).
Qed.

(** One iteration leaves the accepted list alone or appends the record
    of the event to it. *)
Lemma loop1_body_appends l ev ctl l' :
  body l ev = Ok (ctl, l') →
  posts l' = posts l
  ∨ posts l' = posts l ++ [ET.attrib (ET.deref (root l) ev.2)].
Proof.
  destruct (ET.is_row_end (root l) ev) eqn:Hrow.
  - destruct (Z.lt_ge_cases (extracted_count l) num_posts) as [Hroom|Hfull].
    + rewrite (loop1_body_row _ _ Hrow Hroom). cbn zeta.
      destruct (acc _); [destruct (_ >=? _)|]; intros [= <- <-]; auto.
    + rewrite (loop1_body_full _ _ Hrow Hfull). intros [= <- <-]; auto.
  - rewrite (loop1_body_skip _ _ Hrow). intros [= <- <-]; auto.
Qed.

(** Once the target is reached (or when it is not positive) nothing is
    appended any more. *)
Lemma loop1_full events : ∀ l broken l' rest,
  num_posts ≤ extracted_count l →
  scan l events broken = Ok (l', rest) → posts l' = posts l.
Proof.
  induction events as [|ev events IH]; intros l broken l' rest Hfull.
  - cbn. destruct broken; [done|]. by intros [= <- <-].
  - cbn [loop]. destruct (ET.is_row_end (root l) ev) eqn:Hrow.
    + rewrite (loop1_body_full _ _ Hrow Hfull). cbn [bind].
      intros Hl%IH; [|done]. exact Hl.
    + rewrite (loop1_body_skip _ _ Hrow). cbn [bind]. by apply IH.
Qed.

(** A loop that returned kept the accepted records among some first
    records of the stream, in order. *)
Lemma loop1_returns events : ∀ l broken l' rest,
  scan l events broken = Ok (l', rest) →
  ∃ n, posts l' = posts l ++ List.filter acc (take n (rows (root l) events)).
Proof.
  induction events as [|ev events IH]; intros l broken l' rest.
  - cbn. destruct broken; [done|]. intros [= <- <-].
    exists O. by rewrite app_nil_r.
  - cbn [loop rows]. destruct (ET.is_row_end (root l) ev) eqn:Hrow.
    + destruct (Z.lt_ge_cases (extracted_count l) num_posts) as [Hroom|Hfull].
      * rewrite (loop1_body_row _ _ Hrow Hroom). cbn zeta.
        destruct (acc (ET.attrib (ET.deref (root l) ev.2))) eqn:Hacc.
        -- destruct (_ >=? _); cbn [bind].
           ++ intros [= <- <-]. exists 1%nat. cbn [firstn List.filter].
              rewrite Hacc, take_0. reflexivity.
           ++ intros [n Hn]%IH. exists (S n). cbn [firstn List.filter].
              rewrite Hacc, Hn. cbn [cleared pushed posts root].
              by rewrite <- app_assoc.
        -- cbn [bind]. intros [n Hn]%IH. exists (S n).
           cbn [firstn List.filter]. by rewrite Hacc, Hn.
      * rewrite (loop1_body_full _ _ Hrow Hfull). cbn [bind].
        intros Hl%loop1_full; [|done]. exists O. by rewrite Hl, app_nil_r.
    + rewrite (loop1_body_skip _ _ Hrow). cbn [bind]. apply IH.
Qed.

(** The loop stops at the record that brings the accepted count to the
    target and pulls no event behind its [end] event. *)
Lemma loop1_stops events : ∀ l broken (M : nat) r,
  rows (root l) events !! M = Some r → acc r = true →
  extracted_count l
  + Z.of_nat (List.length (List.filter acc (take (S M) (rows (root l) events))))
  = num_posts →
  ∃ pre ev rest l',
    scan l events broken = Ok (l', rest)
    ∧ events = pre ++ ev :: rest
    ∧ rows (root l) pre = take M (rows (root l) events)
    ∧ rows (root l) (pre ++ [ev]) = take (S M) (rows (root l) events)
    ∧ posts l' = posts l ++ List.filter acc (take (S M) (rows (root l) events))
    ∧ extracted_count l' = num_posts.
Proof.
  induction events as [|ev events IH]; intros l broken M r HM Hr Hcount.
  { done. }
  cbn [rows] in HM, Hcount. cbn [loop rows].
  destruct (ET.is_row_end (root l) ev) eqn:Hrow.
  - assert (Hroom : extracted_count l < num_posts).
    { assert (Hpos := filter_take_pos acc _ _ _ HM Hr). lia. }
    rewrite (loop1_body_row _ _ Hrow Hroom). cbn zeta.
    destruct M as [|M].
    + injection HM as <-. cbn [firstn List.filter] in Hcount.
      rewrite Hr, take_0 in Hcount.
      cbn [List.length List.filter] in Hcount.
      replace (extracted_count l + 1 >=? num_posts) with true
        by (symmetry; apply Z.geb_le; lia).
      rewrite Hr. cbn [bind]. exists [], ev, events. eexists.
      split; [reflexivity|].
      cbn [app rows firstn List.filter pushed posts extracted_count].
      rewrite Hrow, Hr, take_0. repeat split; lia.
    + cbn [lookup list_lookup] in HM.
      assert (Hpos := filter_take_pos acc _ _ _ HM Hr).
      set (r0 := ET.attrib (ET.deref (root l) ev.2)) in *.
      change (take (S (S M)) (r0 :: ?t)) with (r0 :: take (S M) t) in Hcount |- *.
      cbn [List.filter] in Hcount |- *.
      destruct (acc r0) eqn:Hacc.
      * cbn [List.length] in Hcount.
        replace (extracted_count l + 1 >=? num_posts) with false
          by (symmetry; rewrite Z.geb_leb; apply Z.leb_gt; lia).
        cbn [bind].
        destruct (IH (cleared (pushed l r0) ev) broken M r)
          as (pre & ev' & rest & l' & Hloop & -> & Hpre & Hall & Hposts & Hec);
          [done|done|cbn [cleared pushed extracted_count root]; lia|].
        cbn [cleared pushed root posts] in Hpre, Hall, Hposts.
        exists (ev :: pre), ev', rest, l'.
        split; [done|]. cbn [app rows firstn]. rewrite Hrow. fold r0.
        rewrite Hpre, Hall, Hposts, <- app_assoc. done.
      * cbn [bind].
        destruct (IH (cleared l ev) broken M r)
          as (pre & ev' & rest & l' & Hloop & -> & Hpre & Hall & Hposts & Hec);
          [done|done|cbn [cleared extracted_count root]; lia|].
        cbn [cleared root posts] in Hpre, Hall, Hposts.
        exists (ev :: pre), ev', rest, l'.
        split; [done|]. cbn [app rows firstn]. rewrite Hrow. fold r0.
        by rewrite Hpre, Hall, Hposts.
  - rewrite (loop1_body_skip _ _ Hrow). cbn [bind].
    destruct (IH l broken M r)
      as (pre & ev' & rest & l' & Hloop & -> & Hpre & Hall & Hposts & Hec);
      [done..|].
    exists (ev :: pre), ev', rest, l'.
    split; [done|]. cbn [app rows]. by rewrite Hrow.
Qed.

End Loop1.

(** ** Extraction *)

(** C6. Each iteration of either extraction loop leaves the accepted list
    as it is or appends the current record to it, and the list an
    extraction returns is made of the accepted records among the first
    records of the stream, in the order of the stream. *)
Theorem C6_order_preserved :
  (∀ self root ev ctl self' root',
     Parser2.loop_body self root ev = Ok (ctl, (self', root')) →
     Parser2.posts self' = Parser2.posts self
     ∨ Parser2.posts self'
       = Parser2.posts self ++ [ET.attrib (ET.deref root ev.2)])
  ∧ (∀ K f root events broken self' ps,
       Parser2.extract_from_file (Parser2.StreamingPostExtractor_init K f)
         (ET.Document root events broken) = Ok (self', ps) →
       ps = List.filter (accepts f)
              (take (Z.to_nat (Parser2.total_processed self')) (rows root events)))
  ∧ (∀ K mn mx ys l ev ctl l',
       Parser.loop_body K mn mx ys l ev = Ok (ctl, l') →
       Parser.posts l' = Parser.posts l
       ∨ Parser.posts l'
         = Parser.posts l ++ [ET.attrib (ET.deref (Parser.root l) ev.2)])
  ∧ (∀ K mn mx ys root events broken ps,
       Parser.extract_posts_streaming (ET.Document root events broken) K mn mx ys
       = Ok ps →
       ∃ n, ps = List.filter (accepts_by_year mn mx ys) (take n (rows root events))).
Proof.
  split; [|split; [|split]].
  - intros self root ev ctl self' root' Hbody.
    by destruct (loop_body_appends _ _ _ _ _ _ Hbody) as [Hposts _].
  - intros K f root events broken self' ps. cbn [Parser2.extract_from_file].
    destruct (Parser2.loop _ root events broken) as [[[self1 root1] rest]|e] eqn:Hloop;
      [|done].
    cbn [bind fst]. intros [= <- <-].
    apply loop_returns in Hloop as (consumed & -> & Hposts & Htotal & _).
    cbn [Parser2.StreamingPostExtractor_init Parser2.posts Parser2.post_filter
         Parser2.total_processed] in Hposts, Htotal.
    destruct (rows_app root consumed rest) as [root2 ->].
    rewrite Hposts, Htotal, Z.add_0_l, Nat2Z.id, take_app_length. reflexivity.
  - intros K mn mx ys l ev ctl l'. apply loop1_body_appends.
  - intros K mn mx ys root events broken ps.
    unfold Parser.extract_posts_streaming, Parser.extract_posts_try.
    destruct (Parser.loop _ _ _ _ _ events broken) as [[l' rest]|e] eqn:Hloop;
      [|done].
    intros [= <-]. apply loop1_returns in Hloop as [n Hn]. by exists n.
Qed.

(** C2 (amended). If the record of index [M] is the [K]-th accepted record
    of the stream and the accept predicate returns, without raising, on
    every record before it, then the extraction loop stops at the [end]
    event of that record: the events behind it are never pulled, [M+1]
    records were processed and exactly [K] accepted. The year-only filter
    of [parser.py] never raises, so there this holds for every stream. *)
Theorem C2_early_exit :
  (∀ K f root events broken (M : nat) r,
     rows root events !! M = Some r →
     Parser2.should_include_post f r = Ok true →
     (∀ (i : nat) r', (i < M)%nat → rows root events !! i = Some r' →
        ∃ b, Parser2.should_include_post f r' = Ok b) →
     Z.of_nat (List.length (List.filter (accepts f) (take (S M) (rows root events))))
     = K →
     ∃ pre ev rest self' root',
       Parser2.loop (Parser2.StreamingPostExtractor_init K f) root events broken
       = Ok (self', root', rest)
       ∧ events = pre ++ ev :: rest
       ∧ rows root pre = take M (rows root events)
       ∧ rows root (pre ++ [ev]) = take (S M) (rows root events)
       ∧ Parser2.total_processed self' = Z.of_nat (S M)
       ∧ Parser2.extracted_count self' = K
       ∧ Parser2.posts self'
         = List.filter (accepts f) (take (S M) (rows root events)))
  ∧ (∀ K mn mx ys root events broken (M : nat) r,
       rows root events !! M = Some r →
       accepts_by_year mn mx ys r = true →
       Z.of_nat (List.length (List.filter (accepts_by_year mn mx ys)
                                (take (S M) (rows root events))))
       = K →
       ∃ pre ev rest l',
         Parser.extract_posts_try (ET.Document root events broken) K mn mx ys
         = Ok (l', rest)
         ∧ events = pre ++ ev :: rest
         ∧ rows root pre = take M (rows root events)
         ∧ rows root (pre ++ [ev]) = take (S M) (rows root events)
         ∧ Parser.extracted_count l' = K
         ∧ Parser.posts l'
           = List.filter (accepts_by_year mn mx ys) (take (S M) (rows root events))).
Proof.
  split.
  - intros K f root events broken M r HM Hr Hev HK.
    destruct (loop_stops events (Parser2.StreamingPostExtractor_init K f)
                root broken M r)
      as (pre & ev & rest & self' & root' & Hloop & -> & Hpre & Hall);
      [done|done|done|cbn; lia|].
    exists pre, ev, rest, self', root'.
    split; [done|]. split; [done|]. split; [done|]. split; [done|].
    apply loop_returns in Hloop as (consumed & Heq & Hposts & Htotal & Hcount).
    replace (pre ++ ev :: rest) with ((pre ++ [ev]) ++ rest) in Heq
      by (by rewrite <- app_assoc).
    apply app_inv_tail in Heq as <-.
    cbn [Parser2.StreamingPostExtractor_init Parser2.posts Parser2.post_filter
         Parser2.total_processed Parser2.extracted_count]
      in Hposts, Htotal, Hcount.
    rewrite Hall in Hposts, Htotal, Hcount.
    rewrite Hposts, Htotal, Hcount, length_take_le;
      [repeat split; lia|].
    apply lookup_lt_Some in HM. lia.
  - intros K mn mx ys root events broken M r HM Hr HK.
    destruct (loop1_stops K mn mx ys events
                {| Parser.posts := []; Parser.extracted_count := 0;
                   Parser.root := root |} broken M r)
      as (pre & ev & rest & l' & Hloop & -> & Hpre & Hall & Hposts & Hec);
      [done|done|cbn; lia|].
    exists pre, ev, rest, l'. cbn [Parser.extract_posts_try].
    by repeat split.
Qed.

(** C3. On the five records with post types 1, 2, 1, 1, 2 and scores
    10, 1, -3, 7, 2, with [min_score=0], allowed post types {"1"} and
    target 2: the filter accepts the records at positions 1 and 4 and
    rejects those at positions 2, 3 and 5; extraction returns the records
    of positions 1 and 4, in that order, after scanning 4 records, and
    leaves the events of the fifth record unread. *)
Theorem C3_scenario :
  Parser2.should_include_post scenario_filter <$> scenario_records
  = [Ok true; Ok false; Ok false; Ok true; Ok false]
  ∧ Parser2.extract_from_file
      (Parser2.StreamingPostExtractor_init 2 scenario_filter)
      (ET.Document posts_root (flat_events scenario_records) false)
    = Ok (scenario_extractor_end, [post "1" "10"; post "1" "7"])
  ∧ scenario_records !! 0%nat = Some (post "1" "10")
  ∧ scenario_records !! 3%nat = Some (post "1" "7")
  ∧ Parser2.total_processed scenario_extractor_end = 4
  ∧ Parser2.loop (Parser2.StreamingPostExtractor_init 2 scenario_filter)
      posts_root (flat_events scenario_records) false
    = Ok (scenario_extractor_end, posts_root,
          [(ET.start, row_elem (post "2" "2")); (ET.end_, row_elem (post "2" "2"));
           (ET.end_, ET.Root)]).
Proof. vm_compute. repeat split. Qed.

Lemma C6_witness :
  (Parser2.posts (push (Parser2.StreamingPostExtractor_init 2 scenario_filter)
                    (post "1" "10"))
   = Parser2.posts (Parser2.StreamingPostExtractor_init 2 scenario_filter)
   ∨ Parser2.posts (push (Parser2.StreamingPostExtractor_init 2 scenario_filter)
                      (post "1" "10"))
     = Parser2.posts (Parser2.StreamingPostExtractor_init 2 scenario_filter)
       ++ [post "1" "10"])
  ∧ [post "1" "10"; post "1" "7"]
    = List.filter (accepts scenario_filter)
        (take 4 (rows posts_root (flat_events scenario_records)))
  ∧ (let l0 := {| Parser.posts := []; Parser.extracted_count := 0;
                  Parser.root := posts_root |} in
     Parser.posts (pushed l0 (post "1" "10")) = Parser.posts l0
     ∨ Parser.posts (pushed l0 (post "1" "10"))
       = Parser.posts l0 ++ [post "1" "10"])
  ∧ (∃ n, scenario_records
          = List.filter (accepts_by_year (Some 2015) None None)
              (take n (rows posts_root (flat_events scenario_records)))).
Proof.
  destruct C6_order_preserved as (Hstep2 & Hall2 & Hstep1 & Hall1).
  split; [|split; [|split]].
  - apply (Hstep2 (Parser2.StreamingPostExtractor_init 2 scenario_filter)
             posts_root (ET.end_, row_elem (post "1" "10")) Continue _
             (ET.clear posts_root)).
    vm_compute. reflexivity.
  - apply (Hall2 2 scenario_filter posts_root (flat_events scenario_records)
             false scenario_extractor_end).
    vm_compute. reflexivity.
  - intros l0.
    apply (Hstep1 1 (Some 2015) None None l0
             (ET.end_, row_elem (post "1" "10")) Break
             (pushed l0 (post "1" "10"))).
    vm_compute. reflexivity.
  - apply (Hall1 5 (Some 2015) None None posts_root
             (flat_events scenario_records) false).
    vm_compute. reflexivity.
Defined.

(** C2 (counterexample). Three records, target 1: the first has
    Score="abc", the second is accepted, so the first accepted record is
    the second of the stream and [1 < 3]; yet extraction does not process
    the records up to it: it raises [ValueError] at the first record. *)
Lemma C2_counterexample :
  let f := Parser2.PostFilter_init None None None None None None None None None None None in
  let records := [post "1" "abc"; post "1" "5"; post "1" "6"] in
  let recs := rows posts_root (flat_events records) in
  (1 < List.length recs)%nat
  ∧ recs !! 1%nat = Some (post "1" "5")
  ∧ Parser2.should_include_post f (post "1" "5") = Ok true
  ∧ List.length (List.filter (accepts f) (take 2 recs)) = 1%nat
  ∧ Parser2.extract_from_file (Parser2.StreamingPostExtractor_init 1 f)
      (ET.Document posts_root (flat_events records) false)
    = Raise ValueError.
Proof. vm_compute. repeat split; lia. Qed.

Lemma C2_witness :
  (∃ pre ev rest self' root',
     Parser2.loop (Parser2.StreamingPostExtractor_init 2 scenario_filter)
       posts_root (flat_events scenario_records) false
     = Ok (self', root', rest)
     ∧ flat_events scenario_records = pre ++ ev :: rest
     ∧ rows posts_root pre = take 3 (rows posts_root (flat_events scenario_records))
     ∧ rows posts_root (pre ++ [ev])
       = take 4 (rows posts_root (flat_events scenario_records))
     ∧ Parser2.total_processed self' = 4
     ∧ Parser2.extracted_count self' = 2
     ∧ Parser2.posts self'
       = List.filter (accepts scenario_filter)
           (take 4 (rows posts_root (flat_events scenario_records))))
  ∧ (∃ pre ev rest l',
       Parser.extract_posts_try
         (ET.Document posts_root (flat_events scenario_records) false)
         2 None None None
       = Ok (l', rest)
       ∧ flat_events scenario_records = pre ++ ev :: rest
       ∧ rows posts_root pre = take 1 (rows posts_root (flat_events scenario_records))
       ∧ rows posts_root (pre ++ [ev])
         = take 2 (rows posts_root (flat_events scenario_records))
       ∧ Parser.extracted_count l' = 2
       ∧ Parser.posts l'
         = List.filter (accepts_by_year None None None)
             (take 2 (rows posts_root (flat_events scenario_records)))).
Proof.
  destruct C2_early_exit as [Hfull Hyear].
  split.
  - apply (Hfull 2 scenario_filter posts_root (flat_events scenario_records)
             false 3%nat (post "1" "7")).
    + vm_compute. reflexivity.
    + vm_compute. reflexivity.
    + intros [|[|[|i]]] r' Hi Hr'; [| | |lia];
        vm_compute in Hr'; injection Hr' as <-;
        eexists; vm_compute; reflexivity.
    + vm_compute. reflexivity.
  - apply (Hyear 2 None None None posts_root (flat_events scenario_records)
             false 1%nat (post "2" "1")).
    + vm_compute. reflexivity.
    + vm_compute. reflexivity.
    + vm_compute. reflexivity.
Defined.

(** ** The topics output *)

Section Topics.
Import Parser2.

Lemma append_topics_length qs : ∀ self,
  List.length (append_topics self qs).2 = List.length qs.
Proof.
  induction qs as [|q qs IH]; intros self; [reflexivity|].
  cbn [append_topics _create_topic_element].
  specialize (IH {| topic_counter := topic_counter self + 1 |}).
  destruct (append_topics _ qs) as [self2 topics]. cbn in *. by rewrite IH.
Qed.

(** The topic at position [n] is made from the question at position [n]
    with the counter [n] steps further. *)
Lemma append_topics_lookup qs : ∀ self (n : nat) p,
  qs !! n = Some p →
  (append_topics self qs).2 !! n = Some (topic_of (topic_counter self + Z.of_nat n) p).
Proof.
  induction qs as [|q qs IH]; intros self n p Hn; [done|].
  cbn [append_topics _create_topic_element].
  specialize (IH {| topic_counter := topic_counter self + 1 |}).
  destruct (append_topics _ qs) as [self2 topics]. cbn [snd] in *.
  destruct n as [|n].
  - injection Hn as ->. cbn. unfold topic_of. cbn. by rewrite Z.add_0_r.
  - change (qs !! n = Some p) in Hn. rewrite lookup_cons, (IH n p Hn).
    cbn [topic_counter]. do 2 f_equal. lia.
Qed.

Lemma is_question_spec (p : gmap string string) :
  is_question p = true ↔ p !! "PostTypeId" = None ∨ p !! "PostTypeId" = Some "1".
Proof.
  unfold is_question, Py.get. destruct (p !! "PostTypeId") as [t|].
  - rewrite String.eqb_eq. split; [intros ->; by right|].
    by intros [|[= ->]].
  - split; [by left|reflexivity].
Qed.

End Topics.

(** C7. From any accepted list a fresh topics formatter keeps the posts
    whose PostTypeId is "1" or absent, in their order, and drops the
    others; the n-th kept post (counting from 1) becomes the n-th topic
    and carries the label "A.n". *)
Theorem C7_topics_numbering (w : world) (posts : list (gmap string string))
    (output_file : string) :
  can_write w output_file = true →
  ∃ self' topics,
    Parser2.format_posts_to_topics_xml w Parser2.TopicsFormatter_init posts output_file
    = Ok (self', (output_file, topics))
    ∧ List.length topics = List.length (List.filter Parser2.is_question posts)
    ∧ (∀ p, Parser2.is_question p = true
            ↔ p !! "PostTypeId" = None ∨ p !! "PostTypeId" = Some "1")
    ∧ (∀ (n : nat) p,
         List.filter Parser2.is_question posts !! n = Some p →
         ∃ t, topics !! n = Some t
              ∧ t = topic_of (Z.of_nat n + 1) p
              ∧ Parser2.number t = "A." +:+ pretty (Z.of_nat n + 1)).
Proof.
  intros Hw. unfold Parser2.format_posts_to_topics_xml. rewrite Hw.
  pose proof (append_topics_length (List.filter Parser2.is_question posts)
                Parser2.TopicsFormatter_init) as Hlen.
  pose proof (append_topics_lookup (List.filter Parser2.is_question posts)
                Parser2.TopicsFormatter_init) as Hlook.
  destruct (Parser2.append_topics _ _) as [self' topics]. cbn [snd] in *.
  exists self', topics. split; [reflexivity|]. split; [exact Hlen|].
  split; [exact is_question_spec|].
  intros n p Hn. exists (topic_of (Z.of_nat n + 1) p).
  rewrite (Hlook n p Hn). cbn [Parser2.TopicsFormatter_init Parser2.topic_counter].
  split; [do 2 f_equal; lia|]. split; reflexivity.
Qed.

Lemma C7_witness :
  ∃ self' topics,
    Parser2.format_posts_to_topics_xml
      {| open_xml := λ _, ET.Missing; can_write := λ _, true |}
      Parser2.TopicsFormatter_init scenario_records "extracted_topics.xml"
    = Ok (self', ("extracted_topics.xml", topics))
    ∧ List.length topics = List.length (List.filter Parser2.is_question scenario_records)
    ∧ (∀ p, Parser2.is_question p = true
            ↔ p !! "PostTypeId" = None ∨ p !! "PostTypeId" = Some "1")
    ∧ (∀ (n : nat) p,
         List.filter Parser2.is_question scenario_records !! n = Some p →
         ∃ t, topics !! n = Some t
              ∧ t = topic_of (Z.of_nat n + 1) p
              ∧ Parser2.number t = "A." +:+ pretty (Z.of_nat n + 1)).
Proof.
  apply (C7_topics_numbering
           {| open_xml := λ _, ET.Missing; can_write := λ _, true |}
           scenario_records "extracted_topics.xml").
  reflexivity.
Defined.

(** ** The end of a run *)

(** C9. When the scan completes with an empty accepted list, [main] of
    either script exits with status 1 and writes no file; and whenever a
    file is written, the scan had returned a non-empty list. *)
Theorem C9_no_matches :
  (∀ w args f self',
     Parser2.validate_arguments w args = Ok () →
     Parser2.create_post_filter args = Ok f →
     Parser2.extract_from_file
       (Parser2.StreamingPostExtractor_init (Parser2.arg_num_posts args) f)
       (open_xml w (Parser2.arg_input_file args)) = Ok (self', []) →
     exit_code (Parser2.main w args) = 1 ∧ written (Parser2.main w args) = None)
  ∧ (∀ w args out,
       written (Parser2.main w args) = Some out →
       ∃ f self' posts,
         Parser2.create_post_filter args = Ok f
         ∧ Parser2.extract_from_file
             (Parser2.StreamingPostExtractor_init (Parser2.arg_num_posts args) f)
             (open_xml w (Parser2.arg_input_file args)) = Ok (self', posts)
         ∧ posts ≠ [])
  ∧ (∀ w args ys,
       Parser.validate_arguments w args = Ok () →
       Parser.main_specific_years args = Ok ys →
       Parser.extract_posts_streaming (open_xml w (Parser.arg_input_file args))
         (Parser.arg_num_posts args) (Parser.arg_min_year args)
         (Parser.arg_max_year args) ys = Ok [] →
       exit_code (Parser.main w args) = 1 ∧ written (Parser.main w args) = None)
  ∧ (∀ w args out,
       written (Parser.main w args) = Some out →
       ∃ ys posts,
         Parser.main_specific_years args = Ok ys
         ∧ Parser.extract_posts_streaming (open_xml w (Parser.arg_input_file args))
             (Parser.arg_num_posts args) (Parser.arg_min_year args)
             (Parser.arg_max_year args) ys = Ok posts
         ∧ posts ≠ []).
Proof.
  split; [|split; [|split]].
  - intros w args f self' Hval Hfilter Hscan.
    unfold Parser2.main, Parser2.main_body, Parser2.main_try.
    rewrite Hval, Hfilter. cbn [bind]. rewrite Hscan. cbn. done.
  - intros w args out.
    unfold Parser2.main, Parser2.main_body, Parser2.main_try.
    destruct (Parser2.validate_arguments w args) as [[]|e]; cbn [bind];
      [|by destruct e].
    destruct (Parser2.create_post_filter args) as [f|e] eqn:Hfilter; cbn [bind];
      [|by destruct e].
    destruct (Parser2.extract_from_file _ _) as [[self' posts]|e] eqn:Hscan;
      cbn [bind snd]; [|by destruct e].
    destruct posts as [|p posts]; [done|]. intros _.
    by exists f, self', (p :: posts).
  - intros w args ys Hval Hyears Hscan.
    unfold Parser.main, Parser.main_body.
    rewrite Hval. cbn [bind]. rewrite Hyears. cbn [bind]. rewrite Hscan. done.
  - intros w args out.
    unfold Parser.main, Parser.main_body.
    destruct (Parser.validate_arguments w args) as [[]|e]; cbn [bind];
      [|by destruct e].
    destruct (Parser.main_specific_years args) as [ys|e] eqn:Hyears; cbn [bind];
      [|by destruct e].
    destruct (Parser.extract_posts_streaming _ _ _ _ _) as [posts|e] eqn:Hscan;
      cbn [bind]; [|by destruct e].
    destruct posts as [|p posts]; [done|]. intros _.
    by exists ys, (p :: posts).
Qed.

Lemma C9_witness :
  (exit_code (Parser2.main scenario_world (scenario_args 100)) = 1
   ∧ written (Parser2.main scenario_world (scenario_args 100)) = None)
  ∧ (∃ f self' posts,
       Parser2.create_post_filter (scenario_args 0) = Ok f
       ∧ Parser2.extract_from_file
           (Parser2.StreamingPostExtractor_init 2 f)
           (open_xml scenario_world "posts.xml") = Ok (self', posts)
       ∧ posts ≠ [])
  ∧ (exit_code (Parser.main scenario_world (echo_args "empty.xml")) = 1
     ∧ written (Parser.main scenario_world (echo_args "empty.xml")) = None)
  ∧ (∃ ys posts,
       Parser.main_specific_years (echo_args "posts.xml") = Ok ys
       ∧ Parser.extract_posts_streaming (open_xml scenario_world "posts.xml")
           2 None None ys = Ok posts
       ∧ posts ≠ []).
Proof.
  destruct C9_no_matches as (Hfail2 & Hdone2 & Hfail1 & Hdone1).
  split; [|split; [|split]].
  - apply (Hfail2 scenario_world (scenario_args 100)
             (Parser2.PostFilter_init (Some 100) None (Some ["1"]) None None
                None None None None None None)
             {| Parser2.target_count := 2;
                Parser2.post_filter :=
                  Parser2.PostFilter_init (Some 100) None (Some ["1"]) None None
                    None None None None None None;
                Parser2.extracted_count := 0;
                Parser2.total_processed := 5;
                Parser2.posts := [] |});
      vm_compute; reflexivity.
  - apply (Hdone2 scenario_world (scenario_args 0)
             ("extracted_topics.xml",
              [topic_of 1 (post "1" "10"); topic_of 2 (post "1" "7")])).
    vm_compute. reflexivity.
  - apply (Hfail1 scenario_world (echo_args "empty.xml")
             (Some (list_to_set [2015; 2018])));
      vm_compute; reflexivity.
  - apply (Hdone1 scenario_world (echo_args "posts.xml")
             ("extracted_posts.xml", [post "1" "10"; post "2" "1"])).
    vm_compute. reflexivity.
Defined.

(** * Further properties *)

(** ** What extraction returns *)

Section Result1.
Import Parser.

Variable num_posts : Z.
Variables min_year max_year : option Z.
Variable specific_years : option (gset Z).

Local Abbreviation acc := (accepts_by_year min_year max_year specific_years).
Local Abbreviation scan := (loop num_posts min_year max_year specific_years).

(** The loop of [parser.py] from any state: with [n] records still
    wanted, it returns the first [n] accepted records of what is left of
    the stream; it reads to the end, and meets broken markup there, unless
    [n] is positive and that many records are accepted. *)
Lemma loop1_result events : ∀ l broken,
  let n := Z.to_nat (num_posts - extracted_count l) in
  let accs := List.filter acc (rows (root l) events) in
  if broken && negb ((0 <? n)%nat && (n <=? List.length accs)%nat)
  then scan l events broken = Raise ParseError
  else ∃ l' rest, scan l events broken = Ok (l', rest)
                  ∧ posts l' = posts l ++ take n accs.
Proof.
  induction events as [|ev events IH]; intros l broken; cbn zeta.
  - cbn [rows List.filter List.length loop].
    replace (Z.to_nat (num_posts - extracted_count l) <=? 0)%nat
      with (negb (0 <? Z.to_nat (num_posts - extracted_count l))%nat)
      by (destruct (Z.to_nat _); reflexivity).
    rewrite andb_negb_r, andb_true_r. destruct broken; [reflexivity|].
    eexists _, _. split; [reflexivity|]. by rewrite take_nil, app_nil_r.
  - cbn [loop rows]. destruct (ET.is_row_end (root l) ev) eqn:Hrow.
    + set (r0 := ET.attrib (ET.deref (root l) ev.2)).
      destruct (Z.lt_ge_cases (extracted_count l) num_posts) as [Hroom|Hfull].
      * rewrite (loop1_body_row _ _ _ _ _ _ Hrow Hroom). cbn zeta. fold r0.
        cbn [List.filter]. destruct (acc r0) eqn:Hacc.
        -- destruct (extracted_count l + 1 >=? num_posts) eqn:Hlast; cbn [bind].
           ++ apply Z.geb_le in Hlast.
              replace (Z.to_nat (num_posts - extracted_count l)) with 1%nat by lia.
              cbn [List.length Nat.ltb Nat.leb andb negb]. rewrite andb_false_r.
              eexists _, _. split; [reflexivity|].
              cbn [pushed posts firstn]. by rewrite take_0.
           ++ rewrite Z.geb_leb in Hlast. apply Z.leb_gt in Hlast.
              specialize (IH (cleared (pushed l r0) ev) broken). cbn zeta in IH.
              cbn [cleared pushed extracted_count root posts] in IH.
              replace (Z.to_nat (num_posts - extracted_count l))
                with (S (Z.to_nat (num_posts - (extracted_count l + 1)))) by lia.
              cbn [List.length Nat.ltb Nat.leb firstn].
              replace (0 <? Z.to_nat (num_posts - (extracted_count l + 1)))%nat
                with true in IH by (symmetry; apply Nat.ltb_lt; lia).
              cbn [andb] in IH |- *.
              destruct (broken && negb _); [exact IH|].
              destruct IH as (l' & rest & -> & Hp).
              exists l', rest. split; [reflexivity|]. by rewrite Hp, <- app_assoc.
        -- cbn [bind]. exact (IH (cleared l ev) broken).
      * rewrite (loop1_body_full _ _ _ _ _ _ Hrow Hfull). cbn [bind].
        specialize (IH (cleared l ev) broken). cbn zeta in IH.
        cbn [cleared extracted_count root posts] in IH.
        replace (Z.to_nat (num_posts - extracted_count l)) with O in * by lia.
        cbn [Nat.ltb Nat.leb andb negb] in IH |- *.
        destruct (broken && true); [exact IH|].
        destruct IH as (l' & rest & -> & Hp).
        exists l', rest. split; [reflexivity|]. by rewrite Hp, !take_0.
    + rewrite (loop1_body_skip _ _ _ _ _ _ Hrow). cbn [bind].
      exact (IH l broken).
Qed.

End Result1.

Section Result2.
Import Parser2.

(** The loop of [parser2.py] from any state, when the accept predicate
    raises on no record: with [n] records still wanted (at least one: the
    target is only compared after an acceptance), it returns the first [n]
    accepted records of what is left of the stream, and reads to the end
    when fewer are accepted. *)
Lemma loop2_result events : ∀ self root broken,
  (∀ r, r ∈ rows root events →
        ∃ b, should_include_post (post_filter self) r = Ok b) →
  let n := Z.to_nat (Z.max (target_count self - extracted_count self) 1) in
  let accs := List.filter (accepts (post_filter self)) (rows root events) in
  if broken && negb (n <=? List.length accs)%nat
  then loop self root events broken = Raise ParseError
  else ∃ self' root' rest,
         loop self root events broken = Ok (self', root', rest)
         ∧ posts self' = posts self ++ take n accs.
Proof.
  induction events as [|ev events IH]; intros self root broken Htotal; cbn zeta.
  - cbn [rows List.filter List.length loop].
    replace (Z.to_nat (Z.max (target_count self - extracted_count self) 1) <=? 0)%nat
      with false by (symmetry; apply Nat.leb_gt; lia).
    rewrite andb_true_r. destruct broken; [reflexivity|].
    eexists _, _, _. split; [reflexivity|]. by rewrite take_nil, app_nil_r.
  - cbn [loop rows] in Htotal |- *.
    destruct (ET.is_row_end root ev) eqn:Hrow.
    + set (r0 := ET.attrib (ET.deref root ev.2)) in *.
      destruct (Htotal r0) as [b Hb]; [apply list_elem_of_here|].
      assert (Htotal' : ∀ r, r ∈ rows (ET.clear_both root ev.2) events →
                ∃ b, should_include_post (post_filter self) r = Ok b).
      { intros r Hr. apply Htotal. by apply list_elem_of_further. }
      cbn [List.filter]. destruct b.
      * rewrite (loop_body_accept _ _ _ Hrow Hb). fold r0.
        rewrite (proj2 (accepts_true _ _) Hb).
        destruct (extracted_count self + 1 >=? target_count self) eqn:Hlast;
          cbn [bind].
        -- apply Z.geb_le in Hlast.
           replace (Z.to_nat (Z.max (target_count self - extracted_count self) 1))
             with 1%nat by lia.
           cbn [List.length Nat.leb negb]. rewrite andb_false_r.
           eexists _, _, _. split; [reflexivity|].
           cbn [push posts firstn]. by rewrite take_0.
        -- rewrite Z.geb_leb in Hlast. apply Z.leb_gt in Hlast.
           specialize (IH (push self r0) (ET.clear_both root ev.2) broken Htotal').
           cbn zeta in IH.
           cbn [push extracted_count target_count post_filter posts] in IH.
           replace (Z.to_nat (Z.max (target_count self - extracted_count self) 1))
             with (S (Z.to_nat (Z.max (target_count self
                                       - (extracted_count self + 1)) 1))) by lia.
           cbn [List.length Nat.leb firstn].
           destruct (broken && negb _); [exact IH|].
           destruct IH as (self' & root' & rest & -> & Hp).
           exists self', root', rest. split; [reflexivity|].
           by rewrite Hp, <- app_assoc.
      * rewrite (loop_body_reject _ _ _ Hrow Hb). fold r0.
        rewrite (accepts_false _ _ Hb). cbn [bind].
        exact (IH (bump self) (ET.clear_both root ev.2) broken Htotal').
    + rewrite (loop_body_skip _ _ _ Hrow). cbn [bind].
      exact (IH self root broken Htotal).
Qed.

(** However the loop ends, it never accepts more than the target asks
    for, nor more than one record when the target is not positive. *)
Lemma loop2_bound events : ∀ self root broken self' root' rest,
  extracted_count self < Z.max (target_count self) 1 →
  loop self root events broken = Ok (self', root', rest) →
  extracted_count self' ≤ Z.max (target_count self) 1.
Proof.
  induction events as [|ev events IH];
    intros self root broken self' root' rest Hroom.
  - cbn. destruct broken; [done|]. intros [= <- <- <-]. lia.
  - cbn [loop]. destruct (ET.is_row_end root ev) eqn:Hrow.
    + destruct (should_include_post (post_filter self)
                  (ET.attrib (ET.deref root ev.2))) as [[]|e] eqn:Hf.
      * rewrite (loop_body_accept _ _ _ Hrow Hf).
        destruct (extracted_count self + 1 >=? target_count self) eqn:Hlast;
          cbn [bind].
        -- intros [= <- <- <-]. cbn [push extracted_count]. lia.
        -- rewrite Z.geb_leb in Hlast. apply Z.leb_gt in Hlast.
           intros Hloop%IH; cbn [push extracted_count target_count] in *; lia.
      * rewrite (loop_body_reject _ _ _ Hrow Hf). cbn [bind].
        intros Hloop%IH; cbn [bump extracted_count target_count] in *; lia.
      * unfold loop_body. rewrite Hrow. cbn [post_filter]. by rewrite Hf.
    + rewrite (loop_body_skip _ _ _ Hrow). cbn [bind]. by apply IH.
Qed.

End Result2.

Lemma rows_flat_events root records :
  ET.tag root ≠ "row" → rows root (flat_events records) = records.
Proof.
  intros Htag. unfold flat_events.
  assert (Hclear : ∀ r, ET.tag (ET.clear_both root (row_elem r)) ≠ "row") by done.
  revert root Htag Hclear.
  induction records as [|r records IH]; intros root Htag Hclear.
  - cbn. unfold ET.is_row_end. cbn. by destruct (String.eqb_spec (ET.tag root) "row").
  - cbn [fmap list_fmap List.concat app rows].
    unfold ET.is_row_end at 1 2. cbn [fst snd ET.deref row_elem ET.tag ET.attrib].
    cbn [String.eqb Ascii.eqb Bool.eqb andb]. f_equal.
    apply IH; [apply Hclear|done].
Qed.

(** [extract_posts_streaming] on well-formed markup returns the first
    [num_posts] records of the stream that pass the year filter, in order
    (none when [num_posts] is not positive); on a flat document these are
    taken from the list of its rows. *)
Theorem extract_posts_streaming_result
    (num_posts : Z) (min_year max_year : option Z)
    (specific_years : option (gset Z)) :
  (∀ root events,
     Parser.extract_posts_streaming (ET.Document root events false) num_posts
       min_year max_year specific_years
     = Ok (take (Z.to_nat num_posts)
             (List.filter (accepts_by_year min_year max_year specific_years)
                (rows root events))))
  ∧ (∀ records,
       Parser.extract_posts_streaming
         (ET.Document posts_root (flat_events records) false) num_posts
         min_year max_year specific_years
       = Ok (take (Z.to_nat num_posts)
               (List.filter (accepts_by_year min_year max_year specific_years)
                  records))).
Proof.
  assert (Hgen : ∀ root events,
     Parser.extract_posts_streaming (ET.Document root events false) num_posts
       min_year max_year specific_years
     = Ok (take (Z.to_nat num_posts)
             (List.filter (accepts_by_year min_year max_year specific_years)
                (rows root events)))).
  { intros root events.
    unfold Parser.extract_posts_streaming, Parser.extract_posts_try.
    pose proof (loop1_result num_posts min_year max_year specific_years events
                  {| Parser.posts := []; Parser.extracted_count := 0;
                     Parser.root := root |} false) as H.
    cbn zeta in H. cbn [andb Parser.extracted_count Parser.root Parser.posts] in H.
    destruct H as (l' & rest & -> & ->). by rewrite Z.sub_0_r. }
  split; [exact Hgen|].
  intros records. by rewrite Hgen, rows_flat_events.
Qed.

(** When the accept predicate raises on no record of a well-formed
    stream, [extract_from_file] returns the first [target_count] accepted
    records, in order; with a target that is not positive it still returns
    the first accepted record. *)
Theorem extract_from_file_result (K : Z) (f : Parser2.PostFilter)
    (root : ET.Element) (events : list ET.event) :
  (∀ r, r ∈ rows root events → ∃ b, Parser2.should_include_post f r = Ok b) →
  ∃ self',
    Parser2.extract_from_file (Parser2.StreamingPostExtractor_init K f)
      (ET.Document root events false)
    = Ok (self', take (Z.to_nat (Z.max K 1))
                   (List.filter (accepts f) (rows root events))).
Proof.
  intros Htotal. cbn [Parser2.extract_from_file].
  pose proof (loop2_result events (Parser2.StreamingPostExtractor_init K f)
                root false Htotal) as H.
  cbn zeta in H.
  cbn [andb Parser2.StreamingPostExtractor_init Parser2.extracted_count
       Parser2.target_count Parser2.post_filter Parser2.posts] in H.
  destruct H as (self' & root' & rest & -> & Hp).
  exists self'. cbn [bind fst]. by rewrite Hp, Z.sub_0_r.
Qed.

Lemma scenario_predicate_returns r :
  r ∈ rows posts_root (flat_events scenario_records) →
  ∃ b, Parser2.should_include_post scenario_filter r = Ok b.
Proof.
  intros Hr. vm_compute in Hr.
  repeat (apply elem_of_cons in Hr as [->|Hr];
          [eexists; vm_compute; reflexivity|]).
  by apply elem_of_nil in Hr.
Qed.

Lemma extract_from_file_result_witness :
  ∃ self',
    Parser2.extract_from_file (Parser2.StreamingPostExtractor_init 0 scenario_filter)
      (ET.Document posts_root (flat_events scenario_records) false)
    = Ok (self', take (Z.to_nat (Z.max 0 1))
                   (List.filter (accepts scenario_filter)
                      (rows posts_root (flat_events scenario_records)))).
Proof.
  apply (extract_from_file_result 0 scenario_filter posts_root
           (flat_events scenario_records)).
  exact scenario_predicate_returns.
Defined.

(** Broken markup in [parser2.py]: when the predicate raises on no record
    and the markup breaks behind the events, extraction raises
    [ParseError] if fewer records than wanted are accepted before the
    break, and otherwise returns as on well-formed markup. *)
Theorem extract_from_file_broken (K : Z) (f : Parser2.PostFilter)
    (root : ET.Element) (events : list ET.event) :
  (∀ r, r ∈ rows root events → ∃ b, Parser2.should_include_post f r = Ok b) →
  let accs := List.filter (accepts f) (rows root events) in
  (Z.of_nat (List.length accs) < Z.max K 1 →
   Parser2.extract_from_file (Parser2.StreamingPostExtractor_init K f)
     (ET.Document root events true) = Raise ParseError)
  ∧ (Z.max K 1 ≤ Z.of_nat (List.length accs) →
     ∃ self',
       Parser2.extract_from_file (Parser2.StreamingPostExtractor_init K f)
         (ET.Document root events true)
       = Ok (self', take (Z.to_nat (Z.max K 1)) accs)).
Proof.
  intros Htotal accs. cbn [Parser2.extract_from_file].
  pose proof (loop2_result events (Parser2.StreamingPostExtractor_init K f)
                root true Htotal) as H.
  cbn zeta in H.
  cbn [andb Parser2.StreamingPostExtractor_init Parser2.extracted_count
       Parser2.target_count Parser2.post_filter Parser2.posts] in H.
  rewrite Z.sub_0_r in H. fold accs in H.
  split; intros Hlen.
  - replace (Z.to_nat (Z.max K 1) <=? List.length accs)%nat with false in H
      by (symmetry; apply Nat.leb_gt; lia).
    cbn [negb] in H. by rewrite H.
  - replace (Z.to_nat (Z.max K 1) <=? List.length accs)%nat with true in H
      by (symmetry; apply Nat.leb_le; lia).
    cbn [negb] in H. destruct H as (self' & root' & rest & -> & Hp).
    exists self'. cbn [bind fst]. by rewrite Hp.
Qed.

Lemma extract_from_file_broken_witness :
  Parser2.extract_from_file (Parser2.StreamingPostExtractor_init 3 scenario_filter)
    (ET.Document posts_root (flat_events scenario_records) true)
  = Raise ParseError
  ∧ ∃ self',
      Parser2.extract_from_file
        (Parser2.StreamingPostExtractor_init 2 scenario_filter)
        (ET.Document posts_root (flat_events scenario_records) true)
      = Ok (self', take (Z.to_nat (Z.max 2 1))
                     (List.filter (accepts scenario_filter)
                        (rows posts_root (flat_events scenario_records)))).
Proof.
  split.
  - apply (extract_from_file_broken 3 scenario_filter posts_root
             (flat_events scenario_records) scenario_predicate_returns).
    vm_compute. reflexivity.
  - apply (extract_from_file_broken 2 scenario_filter posts_root
             (flat_events scenario_records) scenario_predicate_returns).
    vm_compute. discriminate.
Defined.

(** Broken markup in [parser.py]: extraction ends in [sys.exit(1)] unless
    a positive number of posts is asked for and that many records pass the
    year filter before the break; then it returns them as on well-formed
    markup. *)
Theorem extract_posts_streaming_broken
    (num_posts : Z) (min_year max_year : option Z)
    (specific_years : option (gset Z)) (root : ET.Element)
    (events : list ET.event) :
  let accs := List.filter (accepts_by_year min_year max_year specific_years)
                (rows root events) in
  (num_posts ≤ 0 ∨ Z.of_nat (List.length accs) < num_posts →
   Parser.extract_posts_streaming (ET.Document root events true) num_posts
     min_year max_year specific_years = Raise (SystemExit 1))
  ∧ (0 < num_posts ≤ Z.of_nat (List.length accs) →
     Parser.extract_posts_streaming (ET.Document root events true) num_posts
       min_year max_year specific_years
     = Ok (take (Z.to_nat num_posts) accs)).
Proof.
  intros accs.
  unfold Parser.extract_posts_streaming, Parser.extract_posts_try.
  pose proof (loop1_result num_posts min_year max_year specific_years events
                {| Parser.posts := []; Parser.extracted_count := 0;
                   Parser.root := root |} true) as H.
  cbn zeta in H. cbn [andb Parser.extracted_count Parser.root Parser.posts] in H.
  rewrite Z.sub_0_r in H. fold accs in H.
  split; intros Hlen.
  - replace ((0 <? Z.to_nat num_posts)%nat
             && (Z.to_nat num_posts <=? List.length accs)%nat) with false in H.
    + cbn [negb] in H. by rewrite H.
    + symmetry. apply andb_false_iff. destruct Hlen as [Hlen|Hlen].
      * left. apply Nat.ltb_ge. lia.
      * right. apply Nat.leb_gt. lia.
  - replace ((0 <? Z.to_nat num_posts)%nat
             && (Z.to_nat num_posts <=? List.length accs)%nat) with true in H.
    + cbn [negb] in H. by destruct H as (l' & rest & -> & ->).
    + symmetry. apply andb_true_iff. split.
      * apply Nat.ltb_lt. lia.
      * apply Nat.leb_le. lia.
Qed.

Lemma extract_posts_streaming_broken_witness :
  Parser.extract_posts_streaming
    (ET.Document posts_root (flat_events scenario_records) true) 6
    None None None = Raise (SystemExit 1)
  ∧ Parser.extract_posts_streaming
      (ET.Document posts_root (flat_events scenario_records) true) 2
      None None None
    = Ok (take (Z.to_nat 2)
            (List.filter (accepts_by_year None None None)
               (rows posts_root (flat_events scenario_records)))).
Proof.
  split.
  - apply (extract_posts_streaming_broken 6 None None None posts_root
             (flat_events scenario_records)).
    right. vm_compute. reflexivity.
  - apply (extract_posts_streaming_broken 2 None None None posts_root
             (flat_events scenario_records)).
    split; vm_compute; [reflexivity|discriminate].
Defined.

(** A list that extraction returns is never longer than the target (than
    one record, in [parser2.py] with a target that is not positive; than
    none, in [parser.py]); in [parser2.py] the counter [extracted_count]
    is its length and is at most [total_processed]. *)
Theorem extraction_within_target :
  (∀ K f file self' ps,
     Parser2.extract_from_file (Parser2.StreamingPostExtractor_init K f) file
     = Ok (self', ps) →
     Z.of_nat (List.length ps) ≤ Z.max K 1
     ∧ Parser2.extracted_count self' = Z.of_nat (List.length ps)
     ∧ Parser2.extracted_count self' ≤ Parser2.total_processed self')
  ∧ (∀ K mn mx ys file ps,
       Parser.extract_posts_streaming file K mn mx ys = Ok ps →
       Z.of_nat (List.length ps) ≤ Z.max K 0).
Proof.
  split.
  - intros K f [| |root events broken] self' ps; [done|done|].
    cbn [Parser2.extract_from_file].
    destruct (Parser2.loop _ root events broken) as [[[self1 root1] rest]|e] eqn:Hloop;
      [|done].
    cbn [bind fst]. intros [= <- <-].
    assert (Hroom : Parser2.extracted_count (Parser2.StreamingPostExtractor_init K f)
                    < Z.max (Parser2.target_count
                               (Parser2.StreamingPostExtractor_init K f)) 1)
      by (cbn; lia).
    pose proof (loop2_bound _ _ _ _ _ _ _ Hroom Hloop) as Hbound.
    apply loop_returns in Hloop as (consumed & _ & Hposts & Htotal & Hcount).
    cbn [Parser2.StreamingPostExtractor_init Parser2.posts Parser2.post_filter
         Parser2.total_processed Parser2.extracted_count Parser2.target_count]
      in Hposts, Htotal, Hcount, Hbound.
    rewrite Hposts, Hcount, Htotal. cbn [app].
    pose proof (List.filter_length_le (accepts f) (rows root consumed)).
    repeat split; lia.
  - intros K mn mx ys [| |root events broken] ps; [done|done|].
    unfold Parser.extract_posts_streaming, Parser.extract_posts_try.
    pose proof (loop1_result K mn mx ys events
                  {| Parser.posts := []; Parser.extracted_count := 0;
                     Parser.root := root |} broken) as H.
    cbn zeta in H. cbn [Parser.extracted_count Parser.root Parser.posts] in H.
    destruct (broken && negb _).
    + by rewrite H.
    + destruct H as (l' & rest & -> & ->). intros [= <-].
      cbn [app]. rewrite length_take. lia.
Qed.

Lemma extraction_within_target_witness :
  (Z.of_nat (List.length [post "1" "10"; post "1" "7"]) ≤ Z.max 2 1
   ∧ Parser2.extracted_count scenario_extractor_end
     = Z.of_nat (List.length [post "1" "10"; post "1" "7"])
   ∧ Parser2.extracted_count scenario_extractor_end
     ≤ Parser2.total_processed scenario_extractor_end)
  ∧ Z.of_nat (List.length [post "1" "10"; post "2" "1"]) ≤ Z.max 2 0.
Proof.
  destruct extraction_within_target as [Hfull Hyear].
  split.
  - apply (Hfull 2 scenario_filter
             (ET.Document posts_root (flat_events scenario_records) false)).
    vm_compute. reflexivity.
  - apply (Hyear 2 None None None
             (ET.Document posts_root (flat_events scenario_records) false)).
    vm_compute. reflexivity.
Defined.

(** ** Stages of the accept predicate *)

Section Stages.
Import Parser2.

Lemma below_false (o : option Z) (x : Z) :
  match o with Some m => x <? m | None => false end = false
  ↔ ∀ m, o = Some m → m ≤ x.
Proof.
  destruct o as [m|]; [|by split].
  rewrite Z.ltb_ge. split; [by intros ? ? [= <-]|auto].
Qed.

Lemma above_false (o : option Z) (x : Z) :
  match o with Some m => x >? m | None => false end = false
  ↔ ∀ m, o = Some m → x ≤ m.
Proof.
  destruct o as [m|]; [|by split].
  rewrite Z.gtb_ltb, Z.ltb_ge. split; [by intros ? ? [= <-]|auto].
Qed.

Lemma truthy_false s : Py.truthy s = false ↔ s = "".
Proof. by destruct s. Qed.

(** The stage of a minimum count that applies to questions only. *)
Lemma count_stage (o : option Z) (post_type v : string) :
  match o with
  | Some m =>
      if String.eqb post_type "1" then views <- Py.int v;; Ok (views <? m)
      else Ok false
  | None => Ok false
  end = Ok false
  ↔ (post_type = "1" → ∀ m, o = Some m → ∃ views, Py.int v = Ok views ∧ m ≤ views).
Proof.
  destruct o as [m|]; [|by split].
  destruct (String.eqb_spec post_type "1") as [->|Hne].
  - destruct (Py.int v) as [views|e]; cbn [bind].
    + split.
      * intros [= Hlt%Z.ltb_ge] _ ? [= <-]. eauto.
      * intros H. destruct (H eq_refl m eq_refl) as (? & [= <-] & Hle).
        f_equal. by apply Z.ltb_ge.
    + split; [done|]. intros H. by destruct (H eq_refl m eq_refl) as (? & ? & _).
  - split; [done|reflexivity].
Qed.

Lemma count_stage_cases (o : option Z) (post_type v : string) :
  (∃ b, match o with
        | Some m =>
            if String.eqb post_type "1" then views <- Py.int v;; Ok (views <? m)
            else Ok false
        | None => Ok false
        end = Ok b)
  ∨ (∃ e, match o with
          | Some m =>
              if String.eqb post_type "1" then views <- Py.int v;; Ok (views <? m)
              else Ok false
          | None => Ok false
          end = Raise e).
Proof. destruct (match o with Some _ => _ | None => _ end); eauto. Qed.

End Stages.

Section Accepts.
Import Parser2.

Local Tactic Notation "fwd" uconstr(lem) hyp(H) :=
  let H' := fresh in
  epose proof (proj1 lem H) as H'; clear H; rename H' into H.

Lemma accepted_stage_false (o : option bool) (post_type : string) (r : gmap string string) :
  match o with
  | Some want =>
      String.eqb post_type "1" &&
      (let has_accepted := Py.contains r "AcceptedAnswerId" in
       (want && negb has_accepted) || (negb want && has_accepted))
  | None => false
  end = false
  ↔ (post_type = "1" →
       (o = Some true → is_Some (r !! "AcceptedAnswerId"))
       ∧ (o = Some false → r !! "AcceptedAnswerId" = None)).
Proof.
  unfold Py.contains.
  destruct o as [[]|]; [| |by split].
  - destruct (String.eqb_spec post_type "1") as [->|Hne]; cbn; [|by split].
    rewrite orb_false_r, negb_false_iff, bool_decide_eq_true.
    split; [by intros ? _; split|]. intros H. by apply H.
  - destruct (String.eqb_spec post_type "1") as [->|Hne]; cbn; [|by split].
    rewrite bool_decide_eq_false, <- eq_None_not_Some.
    split; [by intros ? _; split|]. intros H. by apply H.
Qed.

Lemma tags_stage_false (ti te tags : gset string) (post_type : string) :
  String.eqb post_type "1"
  && (bool_decide (ti ≠ ∅) || bool_decide (te ≠ ∅))
  && ((bool_decide (ti ≠ ∅) && negb (bool_decide (ti ∩ tags ≠ ∅)))
      || (bool_decide (te ≠ ∅) && bool_decide (te ∩ tags ≠ ∅))) = false
  ↔ (post_type = "1" → (ti ≠ ∅ → ti ∩ tags ≠ ∅) ∧ te ∩ tags = ∅).
Proof.
  destruct (String.eqb_spec post_type "1") as [->|Hne]; cbn [andb]; [|by split].
  destruct (decide (ti = ∅)) as [Hti|Hti], (decide (te = ∅)) as [Hte|Hte],
    (decide (ti ∩ tags = ∅)) as [Hi|Hi], (decide (te ∩ tags = ∅)) as [He|He];
    repeat (first [rewrite (bool_decide_eq_true_2 (ti ≠ ∅)) by done
                  |rewrite (bool_decide_eq_true_2 (te ≠ ∅)) by done
                  |rewrite (bool_decide_eq_true_2 (ti ∩ tags ≠ ∅)) by done
                  |rewrite (bool_decide_eq_true_2 (te ∩ tags ≠ ∅)) by done
                  |rewrite (bool_decide_eq_false_2 (ti ≠ ∅)) by (intros Hn; exact (Hn Hti))
                  |rewrite (bool_decide_eq_false_2 (te ≠ ∅)) by (intros Hn; exact (Hn Hte))
                  |rewrite (bool_decide_eq_false_2 (ti ∩ tags ≠ ∅)) by (intros Hn; exact (Hn Hi))
                  |rewrite (bool_decide_eq_false_2 (te ∩ tags ≠ ∅)) by (intros Hn; exact (Hn He))]);
    cbn; (split; [intros Hb _|intros Himp; destruct (Himp eq_refl) as [H1 H2]]);
    first [discriminate Hb | reflexivity | by destruct (H1 Hti) | by destruct He
          | split; [intros ?|]; first [done | by rewrite Hte, intersection_empty_l_L]].
Qed.

Lemma year_gate_false (f : PostFilter) :
  bool_decide (is_Some (min_year f)) || bool_decide (is_Some (max_year f))
  || bool_decide (specific_years f ≠ ∅) = false
  ↔ min_year f = None ∧ max_year f = None ∧ specific_years f = ∅.
Proof.
  rewrite !orb_false_iff, !bool_decide_eq_false, <- !eq_None_not_Some.
  split; [intros [[? ?] Hs]|intros (? & ? & ->)]; [|by split; [split|intros []]].
  repeat split; [done..|]. by destruct (decide (specific_years f = ∅)).
Qed.

Lemma years_stage_false (ys : gset Z) (y : Z) :
  bool_decide (ys ≠ ∅) && negb (bool_decide (y ∈ ys)) = false
  ↔ (ys ≠ ∅ → y ∈ ys).
Proof.
  rewrite andb_false_iff, bool_decide_eq_false, negb_false_iff, bool_decide_eq_true.
  split; [intros [Hn|?] ?; [by destruct Hn|done]|].
  intros H. destruct (decide (ys = ∅)) as [->|Hne]; [left; by intros []|right; auto].
Qed.

(** The accept predicate returns [True] exactly on the records that
    satisfy every configured constraint. *)
Theorem should_include_post_true (f : PostFilter) (r : gmap string string) :
  should_include_post f r = Ok true ↔ satisfies f r.
Proof.
  unfold should_include_post, satisfies. cbn zeta.
  set (t := Py.get r "PostTypeId" "1").
  set (cd := Py.get r "CreationDate" "").
  destruct (decide (t ∈ post_types f)) as [Hin|Hout];
    [rewrite bool_decide_eq_true_2 by done
    |rewrite bool_decide_eq_false_2 by done; split; [done|by intros [? _]]].
  cbn [negb].
  destruct (Py.int (Py.get r "Score" "0")) as [score|e] eqn:Hs; cbn [bind];
    [|split; [done|by intros (_ & (? & ? & _) & _)]].
  destruct (match min_score f with Some m => score <? m | None => false end) eqn:Hmin.
  { split; [done|]. intros (_ & (? & [= <-] & Hlo & _) & _).
    apply (proj2 (below_false _ _)) in Hlo. congruence. }
  fwd (below_false _ _) Hmin.
  destruct (match max_score f with Some m => score >? m | None => false end) eqn:Hmax.
  { split; [done|]. intros (_ & (? & [= <-] & _ & Hhi) & _).
    apply (proj2 (above_false _ _)) in Hhi. congruence. }
  fwd (above_false _ _) Hmax.
  destruct (count_stage_cases (min_views f) t (Py.get r "ViewCount" "0"))
    as [[[] Hv]|[e Hv]]; rewrite Hv; cbn [bind].
  1, 3: split; [done|]; intros (_ & _ & Hq & _);
        assert (Hv' := proj2 (count_stage (min_views f) t (Py.get r "ViewCount" "0"))
                         (λ Ht, proj1 (Hq Ht))); congruence.
  fwd (count_stage _ _ _) Hv.
  destruct (count_stage_cases (min_answers f) t (Py.get r "AnswerCount" "0"))
    as [[[] Ha]|[e Ha]]; rewrite Ha; cbn [bind].
  1, 3: split; [done|]; intros (_ & _ & Hq & _);
        assert (Ha' := proj2 (count_stage (min_answers f) t (Py.get r "AnswerCount" "0"))
                         (λ Ht, proj1 (proj2 (Hq Ht)))); congruence.
  fwd (count_stage _ _ _) Ha.
  destruct (match has_accepted_answer f with Some _ => _ | None => false end) eqn:Hacc.
  { split; [done|]. intros (_ & _ & Hq & _).
    assert (Hacc' := proj2 (accepted_stage_false (has_accepted_answer f) t r)
                       (λ Ht, conj (proj1 (proj2 (proj2 (Hq Ht))))
                                   (proj1 (proj2 (proj2 (proj2 (Hq Ht))))))).
    cbn zeta in Hacc'. congruence. }
  fwd (accepted_stage_false _ _ _) Hacc.
  destruct (String.eqb t "1" && _ && _) eqn:Htags.
  { split; [done|]. intros (_ & _ & Hq & _).
    assert (Htags' := proj2 (tags_stage_false (tags_include f) (tags_exclude f)
                               (_extract_tags (Py.get r "Tags" "")) t)
                        (λ Ht, proj2 (proj2 (proj2 (proj2 (Hq Ht)))))).
    congruence. }
  fwd (tags_stage_false _ _ _ _) Htags.
  assert (Hfront : t ∈ post_types f
    ∧ (∃ score0, Ok score = Ok score0
         ∧ (∀ m, min_score f = Some m → m ≤ score0)
         ∧ (∀ m, max_score f = Some m → score0 ≤ m))
    ∧ (t = "1" →
         (∀ m, min_views f = Some m →
            ∃ views, Py.int (Py.get r "ViewCount" "0") = Ok views ∧ m ≤ views)
         ∧ (∀ m, min_answers f = Some m →
              ∃ answers, Py.int (Py.get r "AnswerCount" "0") = Ok answers ∧ m ≤ answers)
         ∧ (has_accepted_answer f = Some true → is_Some (r !! "AcceptedAnswerId"))
         ∧ (has_accepted_answer f = Some false → r !! "AcceptedAnswerId" = None)
         ∧ (tags_include f ≠ ∅
            → tags_include f ∩ _extract_tags (Py.get r "Tags" "") ≠ ∅)
         ∧ tags_exclude f ∩ _extract_tags (Py.get r "Tags" "") = ∅)).
  { split; [done|]. split; [by exists score|].
    intros Ht. destruct (Hacc Ht), (Htags Ht). repeat split; auto. }
  destruct Hfront as (H1 & H2 & H3).
  destruct (extract_year2_total cd) as [y Hy]. rewrite Hy. cbn [bind].
  destruct (decide (cd = "")) as [Hcd|Hcd].
  { rewrite (proj2 (truthy_false cd) Hcd).
    split; [|by destruct (_ || _)]. intros _.
    split; [done|]. split; [done|]. split; [done|]. intros Hne. by destruct Hne. }
  destruct (Py.truthy cd) eqn:Htruthy;
    [|destruct Hcd; exact (proj1 (truthy_false cd) Htruthy)].
  destruct (bool_decide (is_Some (min_year f)) || _ || _) eqn:Hgate.
  - destruct (bool_decide (specific_years f ≠ ∅) && _) eqn:Hys.
    { split; [done|]. intros (_ & _ & _ & Hyr).
      destruct (Hyr Hcd) as (? & [= <-] & Hsp & _).
      apply (proj2 (years_stage_false _ _)) in Hsp. congruence. }
    fwd (years_stage_false _ _) Hys.
    destruct (match min_year f with Some m => y <? m | None => false end) eqn:Hlo.
    { split; [done|]. intros (_ & _ & _ & Hyr).
      destruct (Hyr Hcd) as (? & [= <-] & _ & Hl & _).
      apply (proj2 (below_false _ _)) in Hl. congruence. }
    fwd (below_false _ _) Hlo.
    destruct (match max_year f with Some m => y >? m | None => false end) eqn:Hhi.
    { split; [done|]. intros (_ & _ & _ & Hyr).
      destruct (Hyr Hcd) as (? & [= <-] & _ & _ & Hh).
      apply (proj2 (above_false _ _)) in Hh. congruence. }
    fwd (above_false _ _) Hhi.
    split; [|done]. intros _.
    split; [done|]. split; [done|]. split; [done|]. intros _. by exists y.
  - fwd (year_gate_false _) Hgate. destruct Hgate as (Hmn & Hmx & Hsp).
    split; [|done]. intros _.
    split; [done|]. split; [done|]. split; [done|]. intros _. exists y.
    rewrite Hmn, Hmx, Hsp. by repeat split.
Qed.

End Accepts.

Lemma should_include_post_true_witness :
  satisfies scenario_filter (post "1" "10")
  ∧ ¬ satisfies scenario_filter (post "1" "-3").
Proof.
  split.
  - apply (proj1 (should_include_post_true scenario_filter (post "1" "10"))).
    vm_compute. reflexivity.
  - intros Hs.
    apply (proj2 (should_include_post_true scenario_filter (post "1" "-3"))) in Hs.
    vm_compute in Hs. discriminate Hs.
Defined.

(** The constraints on views, answers, accepted answer and tags are not
    looked at for a record that is not a question: the filter decides as
    it would without them. *)
Theorem question_constraints_only_for_questions
    (f : Parser2.PostFilter) (r : gmap string string) :
  Py.get r "PostTypeId" "1" ≠ "1" →
  Parser2.should_include_post f r
  = Parser2.should_include_post (without_question_constraints f) r.
Proof.
  intros Hne. unfold Parser2.should_include_post, without_question_constraints.
  cbn [Parser2.min_score Parser2.max_score Parser2.post_types
       Parser2.tags_include Parser2.tags_exclude Parser2.min_answers
       Parser2.has_accepted_answer Parser2.min_views Parser2.min_year
       Parser2.max_year Parser2.specific_years].
  rewrite (proj2 (String.eqb_neq _ _) Hne).
  destruct (Parser2.min_views f), (Parser2.min_answers f),
    (Parser2.has_accepted_answer f); reflexivity.
Qed.

Lemma question_constraints_only_for_questions_witness :
  let f := Parser2.PostFilter_init None None None (Some ["calculus"]) None
             (Some 2) (Some true) (Some 1000) None None None in
  Parser2.should_include_post f (post "2" "4")
  = Parser2.should_include_post (without_question_constraints f) (post "2" "4").
Proof.
  intros f. apply question_constraints_only_for_questions.
  vm_compute. discriminate.
Defined.

(** The two filters agree on years: a full filter that has only year
    constraints decides like the year-only filter of [parser.py] on every
    record whose post type is "1" or "2" (or absent) and whose Score (if
    any) is an integer. *)
Theorem year_filters_agree (min_year max_year : option Z)
    (specific_years : option (list Z)) (r : gmap string string) :
  Py.get r "PostTypeId" "1" ∈ ["1"; "2"] →
  numeric_or_absent r "Score" →
  Parser2.should_include_post
    (Parser2.PostFilter_init None None None None None None None None
       min_year max_year specific_years) r
  = Parser.should_include_post_by_year r min_year max_year
      (list_to_set <$> specific_years).
Proof.
  intros Htype [score Hscore]%int_get_numeric.
  unfold Parser2.should_include_post, Parser.should_include_post_by_year.
  cbn [Parser2.PostFilter_init Parser2.min_score Parser2.max_score
       Parser2.post_types Parser2.tags_include Parser2.tags_exclude
       Parser2.min_answers Parser2.has_accepted_answer Parser2.min_views
       Parser2.min_year Parser2.max_year Parser2.specific_years].
  rewrite bool_decide_eq_true_2 by done. rewrite Hscore.
  cbn [negb bind default list_to_set].
  rewrite (bool_decide_eq_false_2 ((∅ : gset string) ≠ ∅))
    by (intros Hn; apply Hn; reflexivity).
  rewrite !andb_false_r. cbn [orb andb].
  replace (default ∅ (list_to_set <$> specific_years) : gset Z)
    with (list_to_set (default [] specific_years) : gset Z)
    by (by destruct specific_years).
  change Parser2._extract_year_from_date with Parser.extract_year_from_date.
  destruct min_year as [mn|], max_year as [mx|];
    cbn [bool_decide decide_rel is_Some_dec option_eq_dec decide
         orb andb negb];
    try (destruct (bool_decide (_ ≠ ∅)); cbn [negb orb andb]);
    by destruct (Py.truthy _).
Qed.

Lemma year_filters_agree_witness :
  let r : gmap string string :=
    {[ "CreationDate" := "2016-03-01T00:00:00.000"; "Score" := "3" ]} in
  Parser2.should_include_post
    (Parser2.PostFilter_init None None None None None None None None
       (Some 2015) (Some 2018) None) r
  = Parser.should_include_post_by_year r (Some 2015) (Some 2018)
      (list_to_set <$> None).
Proof.
  intros r. apply year_filters_agree.
  - vm_compute. apply list_elem_of_here.
  - exists 3. reflexivity.
Defined.

(** ** Tags *)

Section TagTokens.

Lemma span_not_gt_no_gt s i : String.get i (Re.span_not_gt s).1 ≠ Some ">"%char.
Proof.
  revert i. induction s as [|c s IH]; intros i; [by destruct i|].
  cbn [Re.span_not_gt]. destruct (Ascii.eqb_spec c ">") as [->|Hc].
  - by destruct i.
  - destruct (Re.span_not_gt s) as [run rest]. cbn [fst] in *.
    destruct i as [|i]; cbn; [congruence|apply IH].
Qed.

Lemma tag_body_is_tag s t : Re.tag_body s = Some t → is_tag t.
Proof.
  unfold Re.tag_body. pose proof (span_not_gt_no_gt s) as Hno.
  destruct (Re.span_not_gt s) as [[|c run] rest]; [done|].
  destruct rest as [|d rest]; [done|].
  destruct (Ascii.eqb_spec d ">") as [->|Hd].
  - intros [= <-]. split; [done|exact Hno].
  - intros H. exfalso. revert H.
    destruct d as [[] [] [] [] [] [] [] []]; first [done|by destruct Hd].
Qed.

Lemma findall_tags_from_is_tag s : ∀ skip t,
  t ∈ Re.findall_tags_from skip s → is_tag t.
Proof.
  induction s as [|c s IH]; intros skip t; cbn [Re.findall_tags_from].
  - by intros ?%elem_of_nil.
  - destruct skip as [|k]; [|apply IH].
    destruct (Ascii.eqb c "<"); [|apply IH].
    destruct (Re.tag_body s) as [t'|] eqn:Hbody; [|apply IH].
    intros [->|Ht]%elem_of_cons; [by eapply tag_body_is_tag|by eapply IH].
Qed.

End TagTokens.

(** Whatever the tags text is, every tag the extractor finds in it has at
    least one character and contains no [>]; a filter tag that is empty or
    contains [>] therefore matches no record. *)
Theorem extract_tags_only_tags (tags_text t : string) :
  t ∈ Parser2._extract_tags tags_text → is_tag t.
Proof.
  unfold Parser2._extract_tags. destruct (Py.truthy tags_text); cbn [negb].
  - rewrite elem_of_list_to_set. apply findall_tags_from_is_tag.
  - by intros ?%elem_of_empty.
Qed.

Lemma extract_tags_only_tags_witness : is_tag "b".
Proof.
  apply (extract_tags_only_tags "<a<><b>c>" "b").
  vm_compute. reflexivity.
Defined.

(** ** Comma-separated lists *)

Section Commas.

Lemma split_comma_ne s : Py.split_comma s ≠ [].
Proof.
  destruct s as [|c s]; [done|]. cbn [Py.split_comma].
  destruct (Ascii.eqb c ","); [done|]. by destruct (Py.split_comma s).
Qed.

Lemma concat_cons_char c h (t : list string) :
  String.concat "," (String c h :: t) = String c (String.concat "," (h :: t)).
Proof. by destruct t. Qed.

Lemma join_split_comma s : String.concat "," (Py.split_comma s) = s.
Proof.
  induction s as [|c s IH]; [done|]. cbn [Py.split_comma].
  destruct (Ascii.eqb_spec c ",") as [->|Hc].
  - pose proof (split_comma_ne s) as Hne.
    destruct (Py.split_comma s) as [|h t]; [done|].
    cbn [String.concat]. cbn. by rewrite <- IH.
  - pose proof (split_comma_ne s) as Hne.
    destruct (Py.split_comma s) as [|h t]; [done|].
    by rewrite concat_cons_char, IH.
Qed.

Lemma comma_free_cons c s :
  comma_free (String c s) → c ≠ ","%char ∧ comma_free s.
Proof.
  intros H; split.
  - intros ->. by apply (H O).
  - intros i. apply (H (S i)).
Qed.

Lemma split_comma_free s : comma_free s → Py.split_comma s = [s].
Proof.
  induction s as [|c s IH]; [done|].
  intros [Hc Hs]%comma_free_cons. cbn [Py.split_comma].
  destruct (Ascii.eqb_spec c ","); [done|]. by rewrite (IH Hs).
Qed.

Lemma split_comma_app s rest :
  comma_free s →
  Py.split_comma (s +:+ String "," rest) = s :: Py.split_comma rest.
Proof.
  induction s as [|c s IH]; [done|].
  intros [Hc Hs]%comma_free_cons.
  change (String c s +:+ String "," rest) with (String c (s +:+ String "," rest)).
  cbn [Py.split_comma]. destruct (Ascii.eqb_spec c ","); [done|].
  by rewrite (IH Hs).
Qed.

Lemma split_comma_join parts :
  parts ≠ [] → Forall comma_free parts →
  Py.split_comma (String.concat "," parts) = parts.
Proof.
  intros Hne Hfree. induction Hfree as [|p parts Hp Hparts IH]; [done|].
  destruct parts as [|q parts]; [by apply split_comma_free|].
  change (String.concat "," (p :: q :: parts))
    with (p +:+ String "," (String.concat "," (q :: parts))).
  rewrite split_comma_app by done. f_equal. by apply IH.
Qed.

End Commas.

(** The Tags text of a topic: for a tag string [<tag1>...<tagN>] it is the
    tags joined by commas, and cutting it at the commas gives the tags
    back when there is at least one tag and no tag contains a comma. *)
Theorem extract_clean_tags_round_trip (tags : list string) :
  Forall is_tag tags →
  Parser2._extract_clean_tags (tag_string tags) = String.concat "," tags
  ∧ (tags ≠ [] → Forall comma_free tags →
     Py.split_comma (Parser2._extract_clean_tags (tag_string tags)) = tags).
Proof.
  intros Htags.
  assert (Hjoin : Parser2._extract_clean_tags (tag_string tags)
                  = String.concat "," tags).
  { unfold Parser2._extract_clean_tags.
    destruct tags as [|t tags]; [reflexivity|].
    cbn [tag_string Py.truthy negb]. change (String "<" ?s) with (tag_string (t :: tags)).
    by rewrite findall_tag_string. }
  split; [exact Hjoin|]. intros Hne Hfree. rewrite Hjoin.
  by apply split_comma_join.
Qed.

(** [--include-tags] and [--exclude-tags]: when the option is the comma
    join of tags without commas and without whitespace at their ends, the
    filter gets exactly the set of these tags. *)
Theorem create_post_filter_tags (args : Parser2.Args) (inc exc : list string) :
  Parser2.arg_include_tags args = Some (String.concat "," inc) →
  Parser2.arg_exclude_tags args = Some (String.concat "," exc) →
  Parser2.arg_years args = None →
  String.concat "," inc ≠ "" → String.concat "," exc ≠ "" →
  Forall comma_free inc → Forall comma_free exc →
  Forall (λ t, Py.str_strip t = t) inc →
  Forall (λ t, Py.str_strip t = t) exc →
  ∃ f, Parser2.create_post_filter args = Ok f
       ∧ Parser2.tags_include f = list_to_set inc
       ∧ Parser2.tags_exclude f = list_to_set exc.
Proof.
  intros Hinc Hexc Hyears Hi He Hfi Hfe Hsi Hse.
  unfold Parser2.create_post_filter. rewrite Hinc, Hexc, Hyears.
  cbn [Py.truthy_str default bind].
  assert (Htruthy : ∀ s, s ≠ "" → Py.truthy s = true) by (by intros []).
  rewrite !Htruthy by done. eexists. split; [reflexivity|].
  assert (Hsplit : ∀ l, String.concat "," l ≠ "" → Forall comma_free l →
            Forall (λ t, Py.str_strip t = t) l →
            Parser2.split_tags (String.concat "," l) = l).
  { intros l Hl Hfree Hstrip. unfold Parser2.split_tags.
    rewrite split_comma_join; [|by intros ->|done]. clear Hl Hfree.
    induction Hstrip as [|t l Ht _ IH]; [done|].
    cbn [fmap list_fmap]. by rewrite Ht, IH. }
  cbn [Parser2.PostFilter_init Parser2.tags_include Parser2.tags_exclude default].
  unfold id. by rewrite !Hsplit.
Qed.

Local Ltac no_such_char :=
  intros i; do 12 (try (destruct i as [|i]; [cbn; discriminate|]));
  cbn; discriminate.

Lemma sample_tags_are_tags : Forall is_tag ["algebra"; "geometry"].
Proof. repeat constructor; first [discriminate|no_such_char]. Qed.

Lemma sample_tags_comma_free :
  Forall comma_free ["algebra"; "geometry"] ∧ Forall comma_free ["homework"].
Proof. split; repeat constructor; no_such_char. Qed.

Lemma extract_clean_tags_round_trip_witness :
  Parser2._extract_clean_tags "<algebra><geometry>" = "algebra,geometry"
  ∧ Py.split_comma (Parser2._extract_clean_tags "<algebra><geometry>")
    = ["algebra"; "geometry"].
Proof.
  destruct (extract_clean_tags_round_trip ["algebra"; "geometry"]
              sample_tags_are_tags) as [Hjoin Hsplit].
  split; [exact Hjoin|].
  apply Hsplit; [discriminate|exact (proj1 sample_tags_comma_free)].
Defined.

Lemma create_post_filter_tags_witness :
  ∃ f, Parser2.create_post_filter tag_args = Ok f
       ∧ Parser2.tags_include f = list_to_set ["algebra"; "geometry"]
       ∧ Parser2.tags_exclude f = list_to_set ["homework"].
Proof.
  apply (create_post_filter_tags tag_args ["algebra"; "geometry"] ["homework"]);
    try reflexivity; try discriminate.
  - exact (proj1 sample_tags_comma_free).
  - exact (proj2 sample_tags_comma_free).
  - repeat constructor.
  - repeat constructor.
Defined.
